(** * firebase-auth-echo-middleware: a shallow embedding of [firebase_auth.go]

    The middleware extracts a token from a request (header, query parameter
    or cookie), hands it to the Firebase client, writes the verified claims
    into the echo context and calls the next handler.  The Go code is
    embedded as Rocq functions: Go strings are byte strings ([string]),
    [map[string][]string] is a [gmap], the echo context store is a [gmap]
    mutated through a small state monad which also records, in order, every
    call the handler makes on the Firebase client, every [c.Set] and every
    call of the next handler. *)

From Stdlib Require Import ZArith Ascii String.
From Stdlib.Strings Require Import Byte.
From stdpp Require Import base strings list gmap.
#[local] Set Warnings "-register-all".

Local Open Scope string_scope.

(** ** Go values *)

(** A Go [error] value.  [echo.HTTPError] is the one error struct the package
    builds itself; every other error (library errors, errors of downstream
    handlers) is identified by its text. *)
Inductive error : Type :=
  | errorString (s : string)
  | HTTPError (Code : Z) (Message : string) (Internal : option error).

(** A value of type [interface{}] held in the echo context store.  The
    middleware only ever stores strings; other handlers may store anything. *)
Inductive any : Type :=
  | AString (s : string)
  | AOther (tag : nat).

(** Go's [s[:l]] and [s[l:]] on a byte string, for [l <= len(s)]. *)
Fixpoint slice_to (s : string) (l : nat) {struct l} : string :=
  match l, s with
  | S l', String a s' => String a (slice_to s' l')
  | _, _ => ""
  end.

Fixpoint slice_from (s : string) (l : nat) {struct l} : string :=
  match l, s with
  | S l', String _ s' => slice_from s' l'
  | _, _ => s
  end.

(** [strings.Split(s, sep)] for a one-byte separator: the substrings between
    the occurrences of [sep], one more than there are occurrences. *)
Fixpoint strings_Split (s : string) (sep : ascii) : list string :=
  match s with
  | "" => [""]
  | String a s' =>
      if decide (a = sep) then "" :: strings_Split s' sep
      else match strings_Split s' sep with
           | p :: ps => String a p :: ps
           | [] => [String a ""]
           end
  end.

(** Whether the byte [a] occurs in [s]. *)
Fixpoint has_byte (a : ascii) (s : string) : bool :=
  match s with
  | "" => false
  | String b s' => bool_decide (b = a) || has_byte a s'
  end.

(** ** net/http and echo *)

Definition http_StatusBadRequest : Z := 400.
Definition http_StatusUnauthorized : Z := 401.
Definition echo_HeaderAuthorization : string := "Authorization".

Record http_Cookie := { Name : string; Value : string }.

(** The part of [echo.Context] that a request fixes: the header map (keys in
    canonical form, as the server stores them), the parsed query string and
    the cookies the request carries. *)
Record Request := {
  Header : gmap string (list string);
  Query : gmap string (list string);
  Cookies : list http_Cookie
}.

(** The echo context store, [map[string]interface{}]. *)
Abbreviation Store := (gmap string any).

(** What the handler does that is visible from outside, in program order. *)
Inductive Event : Type :=
  | EvGetUser (uid : string)
  | EvVerifyIDToken (idToken : string)
  | EvSet (key : string) (val : any)
  | EvNext (store : Store).

Definition is_remote (e : Event) : bool :=
  match e with
  | EvGetUser _ | EvVerifyIDToken _ => true
  | _ => false
  end.

Definition is_verify (e : Event) : bool :=
  match e with EvVerifyIDToken _ => true | _ => false end.

Definition is_getuser (e : Event) : bool :=
  match e with EvGetUser _ => true | _ => false end.

Definition is_set (e : Event) : bool :=
  match e with EvSet _ _ => true | _ => false end.

Definition is_next (e : Event) : bool :=
  match e with EvNext _ => true | _ => false end.

(** The events of one kind, in order, and how many there are. *)
Definition only (p : Event -> bool) (tr : list Event) : list Event :=
  filter (fun e => p e = true) tr.

Definition count (p : Event -> bool) (tr : list Event) : nat :=
  length (only p tr).

(** Errors *)
Definition ErrTokenMissing : error :=
  HTTPError http_StatusBadRequest "Missing or malformed Firebase AuthID TOKEN" None.
Definition ErrTokenInvalid : error :=
  HTTPError http_StatusUnauthorized "Invalid or expired Firebase AuthID TOKEN" None.

Definition error_Code (e : error) : Z :=
  match e with HTTPError c _ _ => c | errorString _ => 0%Z end.
Definition error_Message (e : error) : string :=
  match e with HTTPError _ m _ => m | errorString s => s end.

(** ** The libraries the package is linked against

    Everything the package calls but does not define: header-key
    canonicalisation of [net/http], the Firebase SDK (application and client
    construction, the two remote calls; [RemoteState] is whatever the
    identity provider's answers depend on, so that two calls with the same
    argument may answer differently) and [encoding/json], whose error the
    code drops: the marshalling functions give the string the code stores. *)
Class Platform := {
  CanonicalMIMEHeaderKey : string -> string;
  Token : Type;
  UserRecord : Type;
  UID : Token -> string;
  RemoteState : Type;
  App : Type;
  Client : Type;
  firebase_NewApp : list byte -> App + error;
  App_Auth : App -> Client + error;
  Client_VerifyIDToken : Client -> string -> RemoteState -> (Token + error) * RemoteState;
  Client_GetUser : Client -> string -> RemoteState -> (UserRecord + error) * RemoteState;
  json_Marshal_Token : Token -> string;
  json_Marshal_User : UserRecord -> string
}.

(** [h.Get(key)]: first value stored under the canonical form of [key],
    [""] when there is none. *)
Definition Header_Get `{P : Platform} (c : Request) (key : string) : string :=
  match Header c !! CanonicalMIMEHeaderKey key with
  | Some (v :: _) => v
  | _ => ""
  end.

(** [c.QueryParam(name)]: first value of the parameter, [""] when there is
    none. *)
Definition QueryParam (c : Request) (name : string) : string :=
  match Query c !! name with
  | Some (v :: _) => v
  | _ => ""
  end.

(** [c.Cookie(name)]: the first cookie of that name; [None] stands for the
    error [http.ErrNoCookie]. *)
Definition Cookie (c : Request) (name : string) : option http_Cookie :=
  find (fun k => bool_decide (Name k = name)) (Cookies c).

(** ** Token extractors *)

(** [tokenExtractorFunc]: the token and a Go error ([None] is [nil]). *)
Definition tokenExtractorFunc := Request -> string * option error.

Definition tokenFromHeader `{P : Platform} (header authScheme : string) : tokenExtractorFunc :=
  fun c =>
    let auth := Header_Get c header in
    let l := String.length authScheme in
    if bool_decide (l + 1 < String.length auth) && bool_decide (slice_to auth l = authScheme)
    then (slice_from auth (l + 1), None)
    else ("", Some ErrTokenMissing).

Definition tokenFromQuery (param : string) : tokenExtractorFunc :=
  fun c =>
    let token := QueryParam c param in
    if bool_decide (token = "") then ("", Some ErrTokenMissing)
    else (token, None).

Definition tokenFromCookie (name : string) : tokenExtractorFunc :=
  fun c =>
    match Cookie c name with
    | None => ("", Some ErrTokenMissing)
    | Some cookie => (Value cookie, None)
    end.

(** ** Configuration *)

(** [middleware.Skipper]: a predicate on the echo context. *)
Definition middleware_Skipper := Request -> Store -> bool.

Definition middleware_DefaultSkipper : middleware_Skipper := fun _ _ => false.

(** [Config].  A [nil] skipper is [None]; the empty string is the zero value
    of the string fields. *)
Record Config := {
  Skipper : option middleware_Skipper;
  ContextIDKey : string;
  ContextUserKey : string;
  TokenLookup : string;
  AuthScheme : string;
  CredentialJSON : list byte
}.

(** The package variable [DefaultFirebaseAuthConfig], at its initial value. *)
Definition DefaultFirebaseAuthConfig : Config := {|
  Skipper := Some middleware_DefaultSkipper;
  ContextIDKey := "id-key";
  ContextUserKey := "user";
  TokenLookup := "header:" +:+ echo_HeaderAuthorization;
  AuthScheme := "Bearer";
  CredentialJSON := []
|}.

(** The "Defaults" block of [WithConfig]: four fields are tested and filled,
    [ContextIDKey] and [CredentialJSON] are left as given. *)
Definition applyDefaults (config : Config) : Config := {|
  Skipper :=
    match Skipper config with
    | None => Skipper DefaultFirebaseAuthConfig
    | Some f => Some f
    end;
  ContextIDKey := ContextIDKey config;
  ContextUserKey :=
    if bool_decide (ContextUserKey config = "")
    then ContextUserKey DefaultFirebaseAuthConfig else ContextUserKey config;
  TokenLookup :=
    if bool_decide (TokenLookup config = "")
    then TokenLookup DefaultFirebaseAuthConfig else TokenLookup config;
  AuthScheme :=
    if bool_decide (AuthScheme config = "")
    then AuthScheme DefaultFirebaseAuthConfig else AuthScheme config;
  CredentialJSON := CredentialJSON config
|}.

(** The value a Go [panic] carries, and the outcome of a constructor that
    may panic. *)
Inductive Panic : Type :=
  | PanicString (msg : string)
  | PanicErrorf (format : string) (err : error)
  | PanicIndexOutOfRange (index len : nat).

Inductive Construction (A : Type) : Type :=
  | Built (a : A)
  | Panicked (p : Panic).
Arguments Built {A} a.
Arguments Panicked {A} p.

(** ** The request handler *)

Section Middleware.
Context `{P : Platform}.

(** What one request's run can change: the context store, the identity
    provider, and the record of what the handler did. *)
Record State := {
  store : Store;
  remote : RemoteState;
  trace : list Event
}.

Definition M (A : Type) : Type := State -> A * State.

Definition ret {A} (a : A) : M A := fun s => (a, s).

Definition bind {A B} (m : M A) (k : A -> M B) : M B :=
  fun s => let '(a, s') := m s in k a s'.

Notation "'let*' x ':=' m 'in' k" := (bind m (fun x => k))
  (at level 10, x name, m at level 99, k at level 200).
Notation "'run' m ';;' k" := (bind m (fun _ => k))
  (at level 10, m at level 99, k at level 200).

Definition emit (e : Event) (s : State) : State :=
  {| store := store s; remote := remote s; trace := trace s ++ [e] |}.

(** [c.Set(key, val)] *)
Definition c_Set (key : string) (val : any) : M unit :=
  fun s =>
    let s := emit (EvSet key val) s in
    (tt, {| store := <[key := val]> (store s); remote := remote s; trace := trace s |}).

(** [client.GetUser(ctx, uid)] *)
Definition GetUser (client : Client) (uid : string) : M (UserRecord + error) :=
  fun s =>
    let s := emit (EvGetUser uid) s in
    let '(r, rs) := Client_GetUser client uid (remote s) in
    (r, {| store := store s; remote := rs; trace := trace s |}).

(** [client.VerifyIDToken(ctx, idToken)] *)
Definition VerifyIDToken (client : Client) (idToken : string) : M (Token + error) :=
  fun s =>
    let s := emit (EvVerifyIDToken idToken) s in
    let '(r, rs) := Client_VerifyIDToken client idToken (remote s) in
    (r, {| store := store s; remote := rs; trace := trace s |}).

(** [echo.HandlerFunc] of the rest of the chain: it sees the request and the
    store, may change the store, and returns a Go error. *)
Definition HandlerFunc := Request -> Store -> option error * Store.

(** [next(c)] *)
Definition call_next (next : HandlerFunc) (c : Request) : M (option error) :=
  fun s =>
    let s := emit (EvNext (store s)) s in
    let '(err, st) := next c (store s) in
    (err, {| store := st; remote := remote s; trace := trace s |}).

(** [config.Skipper(c)].  The handler is only built by [WithConfig], after the
    defaults are in place, so the skipper is never [nil] there (lemma
    [applyDefaults_Skipper]). *)
Definition skips (config : Config) (c : Request) (st : Store) : bool :=
  match Skipper config with
  | Some f => f c st
  | None => false
  end.

Definition call_Skipper (config : Config) (c : Request) : M bool :=
  fun s => (skips config c (store s), s).

(** The [&echo.HTTPError{...}] literal built at both failure sites. *)
Definition unauthorized (err : error) : error :=
  HTTPError (error_Code ErrTokenInvalid) (error_Message ErrTokenInvalid) (Some err).

(** The closure [func(c echo.Context) error] returned by the middleware. *)
Definition handler (config : Config) (extractor : tokenExtractorFunc)
    (client : Client) (next : HandlerFunc) (c : Request) : M (option error) :=
  let* skip := call_Skipper config c in
  if skip : bool then call_next next c
  else
    let '(auth, err) := extractor c in
    match err with
    | Some err => ret (Some err)
    | None =>
        run GetUser client auth ;;
        let* r := VerifyIDToken client auth in
        match r with
        | inr err => ret (Some (unauthorized err))
        | inl tok =>
            let jsTok := json_Marshal_Token tok in
            run c_Set (ContextIDKey config) (AString jsTok) ;;
            run c_Set "auth-provider" (AString "firebase") ;;
            let wantUser := Header_Get c "X-GetUser" in
            if bool_decide (wantUser = "true") then
              let* r := GetUser client (UID tok) in
              match r with
              | inr err => ret (Some (unauthorized err))
              | inl user =>
                  let jsUser := json_Marshal_User user in
                  run c_Set (ContextUserKey config) (AString jsUser) ;;
                  call_next next c
              end
            else call_next next c
        end
    end.

(** ** Construction *)

Definition MiddlewareFunc := HandlerFunc -> Request -> M (option error).

(** [WithConfig].  [parts[0]] and [parts[1]] are read off the list; with
    fewer than two parts the first [parts[1]] panics, before the credentials
    are looked at. *)
Definition WithConfig (config : Config) : Construction MiddlewareFunc :=
  let config := applyDefaults config in
  let parts := strings_Split (TokenLookup config) ":" in
  match parts with
  | part0 :: part1 :: _ =>
      let extractor := tokenFromHeader part1 (AuthScheme config) in
      let extractor :=
        if bool_decide (part0 = "query") then tokenFromQuery part1
        else if bool_decide (part0 = "cookie") then tokenFromCookie part1
        else extractor in
      if bool_decide (length (CredentialJSON config) = 0%nat) then
        Panicked (PanicString "echo: FirebaseAuth middleware requires CredentialJSON")
      else
        match firebase_NewApp (CredentialJSON config) with
        | inr err => Panicked (PanicErrorf "error initializing app: %v" err)
        | inl authApp =>
            match App_Auth authApp with
            | inr err => Panicked (PanicErrorf "error getting Auth client: %v" err)
            | inl client => Built (fun next => handler config extractor client next)
            end
        end
  | _ => Panicked (PanicIndexOutOfRange 1 (length parts))
  end.

(** [FirebaseAuth()] *)
Definition FirebaseAuth : Construction MiddlewareFunc :=
  let c := DefaultFirebaseAuthConfig in
  WithConfig c.

(** A fresh request: the store as the earlier middlewares left it, nothing
    done yet. *)
Definition init (st : Store) (rs : RemoteState) : State :=
  {| store := st; remote := rs; trace := [] |}.

(** The store after the two writes that follow a successful verification,
    and after the third one that follows a successful profile fetch. *)
Definition with_claims (config : Config) (st : Store) (tok : Token) : Store :=
  <["auth-provider" := AString "firebase"]>
    (<[ContextIDKey config := AString (json_Marshal_Token tok)]> st).

Definition with_profile (config : Config) (st : Store) (tok : Token)
    (user : UserRecord) : Store :=
  <[ContextUserKey config := AString (json_Marshal_User user)]>
    (with_claims config st tok).

End Middleware.

(** ** A concrete platform

    A small identity provider to run the code on: it knows one good token,
    ["good"], issued to the subject ["uid-1"], and one user profile, the one
    of ["uid-1"], unless the profile service is down.  Its state counts the
    calls it has answered.  Header keys are canonicalised as [net/http] does
    for keys made of letters, digits and hyphens. *)
Module Demo.

Definition is_lower (a : ascii) : bool :=
  (97 <=? nat_of_ascii a)%nat && (nat_of_ascii a <=? 122)%nat.
Definition is_upper (a : ascii) : bool :=
  (65 <=? nat_of_ascii a)%nat && (nat_of_ascii a <=? 90)%nat.

Fixpoint canonical (upper : bool) (s : string) : string :=
  match s with
  | "" => ""
  | String a s' =>
      let a' :=
        if upper && is_lower a then ascii_of_nat (nat_of_ascii a - 32)
        else if negb upper && is_upper a then ascii_of_nat (nat_of_ascii a + 32)
        else a in
      String a' (canonical (bool_decide (a = "-"%char)) s')
  end.

Record Tok := { tokUID : string; tokEmail : string }.

Definition verify (profiles_up : bool) (_ : unit) (idToken : string) (n : nat)
    : (Tok + error) * nat :=
  (if bool_decide (idToken = "good")
   then inl {| tokUID := "uid-1"; tokEmail := "alice@example.org" |}
   else inr (errorString "failed to verify token signature"), S n).

Definition getUser (profiles_up : bool) (_ : unit) (uid : string) (n : nat)
    : (string + error) * nat :=
  (if profiles_up && bool_decide (uid = "uid-1")
   then inl "alice"
   else inr (errorString "user not found"), S n).

Definition platform (profiles_up : bool) : Platform := {|
  CanonicalMIMEHeaderKey := canonical true;
  Token := Tok;
  UserRecord := string;
  UID := tokUID;
  RemoteState := nat;
  App := list byte;
  Client := unit;
  firebase_NewApp := fun creds => inl creds;
  App_Auth := fun _ => inl tt;
  Client_VerifyIDToken := verify profiles_up;
  Client_GetUser := getUser profiles_up;
  json_Marshal_Token := fun t => "{uid:" +:+ tokUID t +:+ "}";
  json_Marshal_User := fun u => "{name:" +:+ u +:+ "}"
|}.

(** A credential document, one byte of it being enough to be non-empty. *)
Definition creds : list byte := [x7b; x7d].

Definition config0 : Config := {|
  Skipper := None;
  ContextIDKey := "";
  ContextUserKey := "";
  TokenLookup := "";
  AuthScheme := "";
  CredentialJSON := creds
|}.

Definition with_lookup (tokenLookup : string) : Config := {|
  Skipper := None;
  ContextIDKey := "claims";
  ContextUserKey := "";
  TokenLookup := tokenLookup;
  AuthScheme := "";
  CredentialJSON := creds
|}.

Definition with_skipper (f : middleware_Skipper) : Config := {|
  Skipper := Some f;
  ContextIDKey := "claims";
  ContextUserKey := "";
  TokenLookup := "";
  AuthScheme := "";
  CredentialJSON := creds
|}.

Definition request (headers : list (string * list string)) : Request := {|
  Header := list_to_map headers;
  Query := ∅;
  Cookies := []
|}.

Definition bearer (auth : string) : Request :=
  request [("Authorization", [auth])].

Definition bearer_detail (auth : string) : Request :=
  request [("Authorization", [auth]); ("X-Getuser", ["true"])].

Definition with_cookie (name value : string) : Request := {|
  Header := ∅;
  Query := ∅;
  Cookies := [{| Name := name; Value := value |}]
|}.

Definition with_query (name value : string) : Request := {|
  Header := ∅;
  Query := {[ name := [value] ]};
  Cookies := []
|}.

(** The rest of the chain: answers without touching the store. *)
Definition ok_handler : HandlerFunc := fun _ st => (None, st).

(** A request's start: an empty store, a provider that has answered no call. *)
Definition start (profiles_up : bool) : @State (platform profiles_up) :=
  @init (platform profiles_up) ∅ 0%nat.

(** Runs a constructed middleware on a request, from that start. *)
Definition serve (profiles_up : bool)
    (mw : Construction (@MiddlewareFunc (platform profiles_up))) (c : Request)
    : option (option error * @State (platform profiles_up)) :=
  match mw with
  | Built f => Some (f ok_handler c (start profiles_up))
  | Panicked _ => None
  end.

End Demo.

(** ** Reading the code as a whole

    The extractor [WithConfig] ends with after its [switch], as a function of
    the two parts of the locator and of the scheme. *)
Definition extractorFor `{P : Platform} (part0 part1 authScheme : string)
    : tokenExtractorFunc :=
  if bool_decide (part0 = "query") then tokenFromQuery part1
  else if bool_decide (part0 = "cookie") then tokenFromCookie part1
  else tokenFromHeader part1 authScheme.

(** [c.Get(key)], as the next handler reads the store. *)
Definition c_Get (st : Store) (key : string) : option any := st !! key.

(** More of the concrete platform: an SDK that may refuse to build the
    application or the client. *)
Module DemoSDK.

Definition platform (app_ok auth_ok : bool) : Platform := {|
  CanonicalMIMEHeaderKey := Demo.canonical true;
  Token := Demo.Tok;
  UserRecord := string;
  UID := Demo.tokUID;
  RemoteState := nat;
  App := list byte;
  Client := unit;
  firebase_NewApp := fun creds =>
    if app_ok then inl creds else inr (errorString "cannot parse credentials");
  App_Auth := fun _ =>
    if auth_ok then inl tt else inr (errorString "project id is required");
  Client_VerifyIDToken := Demo.verify true;
  Client_GetUser := Demo.getUser true;
  json_Marshal_Token := fun t => "{uid:" +:+ Demo.tokUID t +:+ "}";
  json_Marshal_User := fun u => "{name:" +:+ u +:+ "}"
|}.

End DemoSDK.

(** ** The later revision of the file

    The repository also holds a later revision of [firebase_auth.go].  It
    keeps the three extractors and the construction as they are, gives
    [ContextIDKey] its default, and adds to the handler the e-mail identity
    of the token, stored under [ContextUserIDKey], and an optional role
    lookup; it adds the helpers [unauthorized] (the literal the first
    revision writes out twice, [unauthorized] above) and [GetContextValue]. *)
Module Rev2.

(** An [interface{}] found in [tok.Firebase.Identities]. *)
Inductive iface : Type :=
  | INil
  | IString (s : string)
  | ISlice (elems : list iface)
  | IOther (tag : nat).

(** [tok.Firebase.Identities], a [map[string]interface{}] of the SDK. *)
Class Identities (P : Platform) := {
  Firebase_Identities : Token -> gmap string iface
}.

(** A value of the context store: what this revision stores (strings and
    a [[]string] of roles), a stored [nil], and any other value, known by the
    text [fmt]'s [%v] prints for it. *)
Inductive value : Type :=
  | VNil
  | VString (s : string)
  | VStrings (l : list string)
  | VOther (shown : string).

Definition ContextKeyRoles : string := "roles".

(** [GetRolesFunc] *)
Definition GetRolesFunc := string -> list string.

Record Config := {
  Skipper : option (Request -> gmap string value -> bool);
  ContextIDKey : string;
  ContextUserKey : string;
  ContextUserIDKey : string;
  GetRoles : option GetRolesFunc;
  TokenLookup : string;
  AuthScheme : string;
  CredentialJSON : list byte
}.

Definition DefaultFirebaseAuthConfig : Config := {|
  Skipper := Some (fun _ _ => false);
  ContextIDKey := "id-key";
  ContextUserKey := "user";
  ContextUserIDKey := "userID";
  GetRoles := None;
  TokenLookup := "header:" +:+ echo_HeaderAuthorization;
  AuthScheme := "Bearer";
  CredentialJSON := []
|}.

(** The "Defaults" block of this revision's [WithConfig]. *)
Definition applyDefaults (config : Config) : Config := {|
  Skipper :=
    match Skipper config with
    | None => Skipper DefaultFirebaseAuthConfig
    | Some f => Some f
    end;
  ContextIDKey :=
    if bool_decide (ContextIDKey config = "")
    then ContextIDKey DefaultFirebaseAuthConfig else ContextIDKey config;
  ContextUserKey :=
    if bool_decide (ContextUserKey config = "")
    then ContextUserKey DefaultFirebaseAuthConfig else ContextUserKey config;
  ContextUserIDKey :=
    if bool_decide (ContextUserIDKey config = "")
    then ContextUserIDKey DefaultFirebaseAuthConfig else ContextUserIDKey config;
  GetRoles := GetRoles config;
  TokenLookup :=
    if bool_decide (TokenLookup config = "")
    then TokenLookup DefaultFirebaseAuthConfig else TokenLookup config;
  AuthScheme :=
    if bool_decide (AuthScheme config = "")
    then AuthScheme DefaultFirebaseAuthConfig else AuthScheme config;
  CredentialJSON := CredentialJSON config
|}.

Inductive Event : Type :=
  | EvGetUser (uid : string)
  | EvVerifyIDToken (idToken : string)
  | EvGetRoles (email : string)
  | EvSet (key : string) (val : value)
  | EvNext (store : gmap string value).

(** A computation returns, or panics on a failed type assertion
    [v.(wanted)]: "interface conversion: interface {} is ..., not wanted". *)
Inductive Outcome (A : Type) : Type :=
  | Returns (a : A)
  | Panics (v : iface) (wanted : string).
Arguments Returns {A} a.
Arguments Panics {A} v wanted.

(** [fmt.Sprintf("%v", val)] *)
Definition fmt_v (val : value) : string :=
  match val with
  | VNil => "<nil>"
  | VString s => s
  | VStrings l => "[" +:+ String.concat " " l +:+ "]"
  | VOther shown => shown
  end.

(** [GetContextValue(c, key)], on the store of [c]. *)
Definition GetContextValue (st : gmap string value) (key : string) : string :=
  match st !! key with
  | None | Some VNil => ""
  | Some val => fmt_v val
  end.

Section Middleware.
Context `{P : Platform} {I : Identities P}.

Record State := {
  store : gmap string value;
  remote : RemoteState;
  trace : list Event
}.

Definition M (A : Type) : Type := State -> Outcome A * State.

Definition ret {A} (a : A) : M A := fun s => (Returns a, s).

Definition panic {A} (v : iface) (wanted : string) : M A :=
  fun s => (Panics v wanted, s).

Definition bind {A B} (m : M A) (k : A -> M B) : M B :=
  fun s =>
    match m s with
    | (Returns a, s') => k a s'
    | (Panics v wanted, s') => (Panics v wanted, s')
    end.

Notation "'let*' x ':=' m 'in' k" := (bind m (fun x => k))
  (at level 10, x name, m at level 99, k at level 200).
Notation "'run' m ';;' k" := (bind m (fun _ => k))
  (at level 10, m at level 99, k at level 200).

Definition emit (e : Event) (s : State) : State :=
  {| store := store s; remote := remote s; trace := trace s ++ [e] |}.

Definition c_Set (key : string) (val : value) : M unit :=
  fun s =>
    let s := emit (EvSet key val) s in
    (Returns tt, {| store := <[key := val]> (store s); remote := remote s;
                    trace := trace s |}).

Definition GetUser (client : Client) (uid : string) : M (UserRecord + error) :=
  fun s =>
    let s := emit (EvGetUser uid) s in
    let '(r, rs) := Client_GetUser client uid (remote s) in
    (Returns r, {| store := store s; remote := rs; trace := trace s |}).

Definition VerifyIDToken (client : Client) (idToken : string) : M (Token + error) :=
  fun s =>
    let s := emit (EvVerifyIDToken idToken) s in
    let '(r, rs) := Client_VerifyIDToken client idToken (remote s) in
    (Returns r, {| store := store s; remote := rs; trace := trace s |}).

(** [config.GetRoles(email)] *)
Definition call_GetRoles (getRoles : GetRolesFunc) (email : string) : M (list string) :=
  fun s => (Returns (getRoles email), emit (EvGetRoles email) s).

Definition HandlerFunc :=
  Request -> gmap string value -> option error * gmap string value.

Definition call_next (next : HandlerFunc) (c : Request) : M (option error) :=
  fun s =>
    let s := emit (EvNext (store s)) s in
    let '(err, st) := next c (store s) in
    (Returns err, {| store := st; remote := remote s; trace := trace s |}).

Definition skips (config : Config) (c : Request) (st : gmap string value) : bool :=
  match Skipper config with
  | Some f => f c st
  | None => false
  end.

Definition call_Skipper (config : Config) (c : Request) : M bool :=
  fun s => (Returns (skips config c (store s)), s).

(** The type assertions [v.([]interface{})] and [v.(string)]. *)
Definition assert_slice (v : iface) : M (list iface) :=
  match v with
  | ISlice elems => ret elems
  | _ => panic v "[]interface {}"
  end.

Definition assert_string (v : iface) : M string :=
  match v with
  | IString s => ret s
  | _ => panic v "string"
  end.

(** [m[key]] on a Go map: the zero value, [nil], for a missing key. *)
Definition map_index (m : gmap string iface) (key : string) : iface :=
  default INil (m !! key).

(** The closure returned by this revision's middleware. *)
Definition handler (config : Config) (extractor : tokenExtractorFunc)
    (client : Client) (next : HandlerFunc) (c : Request) : M (option error) :=
  let* skip := call_Skipper config c in
  if skip : bool then call_next next c
  else
    let '(auth, err) := extractor c in
    match err with
    | Some err => ret (Some err)
    | None =>
        run GetUser client auth ;;
        let* r := VerifyIDToken client auth in
        match r with
        | inr err => ret (Some (unauthorized err))
        | inl tok =>
            let jsTok := json_Marshal_Token tok in
            let* emailInterface :=
              assert_slice (map_index (Firebase_Identities tok) "email") in
            run match emailInterface with
                | first :: _ =>
                    let* email := assert_string first in
                    c_Set (ContextUserIDKey config) (VString email)
                | [] => ret tt
                end ;;
            run c_Set (ContextIDKey config) (VString jsTok) ;;
            run c_Set "auth-provider" (VString "firebase") ;;
            let detail : M (option error) :=
              let wantUser := Header_Get c "X-GetUser" in
              if bool_decide (wantUser = "true") then
                let* r := GetUser client (UID tok) in
                match r with
                | inr err => ret (Some (unauthorized err))
                | inl user =>
                    let jsUser := json_Marshal_User user in
                    run c_Set (ContextUserKey config) (VString jsUser) ;;
                    call_next next c
                end
              else call_next next c in
            match GetRoles config with
            | Some getRoles =>
                let* roles := call_GetRoles getRoles (ContextUserIDKey config) in
                if bool_decide (length roles = 0%nat)
                then ret (Some (unauthorized (errorString "no roles found")))
                else run c_Set ContextKeyRoles (VStrings roles) ;; detail
            | None => detail
            end
        end
    end.

Definition MiddlewareFunc := HandlerFunc -> Request -> M (option error).

(** This revision's [WithConfig]; construction is as in the first. *)
Definition WithConfig (config : Config) : Construction MiddlewareFunc :=
  let config := applyDefaults config in
  let parts := strings_Split (TokenLookup config) ":" in
  match parts with
  | part0 :: part1 :: _ =>
      let extractor := tokenFromHeader part1 (AuthScheme config) in
      let extractor :=
        if bool_decide (part0 = "query") then tokenFromQuery part1
        else if bool_decide (part0 = "cookie") then tokenFromCookie part1
        else extractor in
      if bool_decide (length (CredentialJSON config) = 0%nat) then
        Panicked (PanicString "echo: FirebaseAuth middleware requires CredentialJSON")
      else
        match firebase_NewApp (CredentialJSON config) with
        | inr err => Panicked (PanicErrorf "error initializing app: %v" err)
        | inl authApp =>
            match App_Auth authApp with
            | inr err => Panicked (PanicErrorf "error getting Auth client: %v" err)
            | inl client => Built (fun next => handler config extractor client next)
            end
        end
  | _ => Panicked (PanicIndexOutOfRange 1 (length parts))
  end.

Definition init (st : gmap string value) (rs : RemoteState) : State :=
  {| store := st; remote := rs; trace := [] |}.

End Middleware.

(** A provider for this revision: the token "good" belongs to a user signed
    in by e-mail, the token "anon" to an anonymous one, with no identities. *)
Module Demo2.

Definition verify (_ : unit) (idToken : string) (n : nat)
    : (Demo.Tok + error) * nat :=
  (if bool_decide (idToken = "good")
   then inl {| Demo.tokUID := "uid-1"; Demo.tokEmail := "alice@example.org" |}
   else if bool_decide (idToken = "anon")
   then inl {| Demo.tokUID := "uid-2"; Demo.tokEmail := "" |}
   else inr (errorString "failed to verify token signature"), S n).

Definition platform : Platform := {|
  CanonicalMIMEHeaderKey := Demo.canonical true;
  Token := Demo.Tok;
  UserRecord := string;
  UID := Demo.tokUID;
  RemoteState := nat;
  App := list byte;
  Client := unit;
  firebase_NewApp := fun creds => inl creds;
  App_Auth := fun _ => inl tt;
  Client_VerifyIDToken := verify;
  Client_GetUser := Demo.getUser true;
  json_Marshal_Token := fun t => "{uid:" +:+ Demo.tokUID t +:+ "}";
  json_Marshal_User := fun u => "{name:" +:+ u +:+ "}"
|}.

Definition identities_of (t : Demo.Tok) : gmap string iface :=
  if bool_decide (Demo.tokEmail t = "") then ∅
  else {[ "email" := ISlice [IString (Demo.tokEmail t)] ]}.

Definition identities : Identities platform :=
  Build_Identities platform identities_of.

Definition config0 (getRoles : option GetRolesFunc) : Config := {|
  Skipper := None;
  ContextIDKey := "";
  ContextUserKey := "";
  ContextUserIDKey := "";
  GetRoles := getRoles;
  TokenLookup := "";
  AuthScheme := "";
  CredentialJSON := Demo.creds
|}.

Definition ok_handler : HandlerFunc := fun _ st => (None, st).

Definition start : @State platform := @init platform ∅ 0%nat.

Definition serve (mw : Construction (@MiddlewareFunc platform)) (c : Request)
    : option (Outcome (option error) * @State platform) :=
  match mw with
  | Built f => Some (f ok_handler c start)
  | Panicked _ => None
  end.

End Demo2.

End Rev2.

(** * Properties *)

(** ** Byte strings *)

Lemma app_nil (t : string) : "" +:+ t = t.
Proof. reflexivity. Qed.

Lemma app_cons (a : ascii) (s t : string) : String a s +:+ t = String a (s +:+ t).
Proof. reflexivity. Qed.

Lemma slice_split (s : string) (l : nat) : s = slice_to s l +:+ slice_from s l.
Proof.
  revert s; induction l as [|l IH]; intros [|a s]; simpl; try reflexivity.
  rewrite app_cons. f_equal; apply IH.
Qed.

Lemma slice_from_length (s : string) (l : nat) :
  String.length (slice_from s l) = String.length s - l.
Proof.
  revert s; induction l as [|l IH]; intros [|a s]; simpl; try reflexivity.
  apply IH.
Qed.

Lemma slice_to_app (a b : string) : slice_to (a +:+ b) (String.length a) = a.
Proof.
  induction a as [|x a IH]; [by destruct b|].
  rewrite app_cons. simpl. by rewrite IH.
Qed.

Lemma slice_from_app (a b : string) : slice_from (a +:+ b) (String.length a) = b.
Proof.
  induction a as [|x a IH]; [by destruct b|].
  rewrite app_cons. simpl. apply IH.
Qed.

Lemma slice_from_succ (s : string) (l : nat) :
  slice_from s (l + 1) = slice_from (slice_from s l) 1.
Proof.
  revert s; induction l as [|l IH]; intros [|a s]; simpl; try reflexivity.
  apply IH.
Qed.

Lemma app_length (a b : string) :
  String.length (a +:+ b) = String.length a + String.length b.
Proof.
  induction a as [|x a IH]; [reflexivity|].
  rewrite app_cons. simpl. by rewrite IH.
Qed.

(** ** Header extraction *)

Section Extraction.
Context `{P : Platform}.

(** Extraction from the header succeeds exactly on the values made of the
    scheme, one more byte and a non-empty rest, and returns that rest. *)
Lemma tokenFromHeader_Some (header authScheme : string) (c : Request) (tok : string) :
  tokenFromHeader header authScheme c = (tok, None) <->
  exists sep, Header_Get c header = authScheme +:+ String sep tok /\ tok <> "".
Proof.
  unfold tokenFromHeader.
  set (auth := Header_Get c header). set (l := String.length authScheme).
  split.
  - destruct (bool_decide (l + 1 < String.length auth)) eqn:Hlen; simpl; [|discriminate].
    destruct (bool_decide (slice_to auth l = authScheme)) eqn:Hpre; simpl; [|discriminate].
    apply bool_decide_eq_true in Hlen, Hpre. intros [= Htok].
    pose proof (slice_split auth l) as Hs. rewrite Hpre in Hs.
    pose proof (slice_from_length auth l) as Hl.
    rewrite slice_from_succ in Htok.
    destruct (slice_from auth l) as [|sep rest] eqn:Hrest; simpl in Hl; [lia|].
    simpl in Htok. subst rest. exists sep. split; [exact Hs|].
    intros ->. simpl in Hl. lia.
  - intros [sep [Hauth Hne]]. rewrite Hauth.
    assert (Hlen : l + 1 < String.length (authScheme +:+ String sep tok)).
    { rewrite app_length. simpl. destruct tok; [done | simpl; subst l; lia]. }
    rewrite (bool_decide_eq_true_2 _ Hlen). subst l.
    rewrite slice_to_app, (bool_decide_eq_true_2 _ eq_refl). simpl.
    by rewrite slice_from_succ, slice_from_app.
Qed.

(** When it does not succeed it answers the one Missing Token error. *)
Lemma tokenFromHeader_cases (header authScheme : string) (c : Request) :
  tokenFromHeader header authScheme c = ("", Some ErrTokenMissing) \/
  exists tok, tokenFromHeader header authScheme c = (tok, None).
Proof.
  unfold tokenFromHeader.
  destruct (_ && _); [right; eauto | left; reflexivity].
Qed.

End Extraction.

(** ** The paths through the handler *)

Section Paths.
Context `{P : Platform}.
Variables (config : Config) (extractor : tokenExtractorFunc) (client : Client).
Variables (next : HandlerFunc) (c : Request) (st : Store) (rs : RemoteState).

Ltac run_handler :=
  unfold handler, bind, ret, call_Skipper, call_next, GetUser, VerifyIDToken,
    c_Set, emit, init; simpl.

Lemma handler_skipped :
  skips config c st = true ->
  handler config extractor client next c (init st rs) =
    ((next c st).1, {| store := (next c st).2; remote := rs; trace := [EvNext st] |}).
Proof.
  intros Hskip. run_handler. rewrite Hskip. simpl. by destruct (next c st).
Qed.

Lemma handler_missing (auth : string) (err : error) :
  skips config c st = false ->
  extractor c = (auth, Some err) ->
  handler config extractor client next c (init st rs) = (Some err, init st rs).
Proof.
  intros Hskip Hex. run_handler. by rewrite Hskip, Hex.
Qed.

Lemma handler_rejected (auth : string) (err : error) (rs2 : RemoteState) :
  skips config c st = false ->
  extractor c = (auth, None) ->
  Client_VerifyIDToken client auth (Client_GetUser client auth rs).2 = (inr err, rs2) ->
  handler config extractor client next c (init st rs) =
    (Some (unauthorized err),
     {| store := st; remote := rs2;
        trace := [EvGetUser auth; EvVerifyIDToken auth] |}).
Proof.
  intros Hskip Hex Hver. run_handler. rewrite Hskip, Hex. simpl.
  destruct (Client_GetUser client auth rs) as [u rs1]; simpl in *.
  by rewrite Hver.
Qed.

Lemma handler_verified (auth : string) (tok : Token) (rs2 : RemoteState) :
  skips config c st = false ->
  extractor c = (auth, None) ->
  Client_VerifyIDToken client auth (Client_GetUser client auth rs).2 = (inl tok, rs2) ->
  Header_Get c "X-GetUser" <> "true" ->
  handler config extractor client next c (init st rs) =
    ((next c (with_claims config st tok)).1,
     {| store := (next c (with_claims config st tok)).2; remote := rs2;
        trace := [EvGetUser auth; EvVerifyIDToken auth;
                  EvSet (ContextIDKey config) (AString (json_Marshal_Token tok));
                  EvSet "auth-provider" (AString "firebase");
                  EvNext (with_claims config st tok)] |}).
Proof.
  intros Hskip Hex Hver Hwant. run_handler. rewrite Hskip, Hex. simpl.
  destruct (Client_GetUser client auth rs) as [u rs1]; simpl in *.
  rewrite Hver. simpl. rewrite (bool_decide_eq_false_2 _ Hwant). simpl.
  fold (with_claims config st tok). by destruct (next c (with_claims config st tok)).
Qed.

Lemma handler_profile_failed (auth : string) (tok : Token) (err : error)
    (rs2 rs3 : RemoteState) :
  skips config c st = false ->
  extractor c = (auth, None) ->
  Client_VerifyIDToken client auth (Client_GetUser client auth rs).2 = (inl tok, rs2) ->
  Header_Get c "X-GetUser" = "true" ->
  Client_GetUser client (UID tok) rs2 = (inr err, rs3) ->
  handler config extractor client next c (init st rs) =
    (Some (unauthorized err),
     {| store := with_claims config st tok; remote := rs3;
        trace := [EvGetUser auth; EvVerifyIDToken auth;
                  EvSet (ContextIDKey config) (AString (json_Marshal_Token tok));
                  EvSet "auth-provider" (AString "firebase");
                  EvGetUser (UID tok)] |}).
Proof.
  intros Hskip Hex Hver Hwant Hget. run_handler. rewrite Hskip, Hex. simpl.
  destruct (Client_GetUser client auth rs) as [u rs1]; simpl in *.
  rewrite Hver. simpl. rewrite (bool_decide_eq_true_2 _ Hwant). simpl.
  by rewrite Hget.
Qed.

Lemma handler_profile_fetched (auth : string) (tok : Token) (user : UserRecord)
    (rs2 rs3 : RemoteState) :
  skips config c st = false ->
  extractor c = (auth, None) ->
  Client_VerifyIDToken client auth (Client_GetUser client auth rs).2 = (inl tok, rs2) ->
  Header_Get c "X-GetUser" = "true" ->
  Client_GetUser client (UID tok) rs2 = (inl user, rs3) ->
  handler config extractor client next c (init st rs) =
    ((next c (with_profile config st tok user)).1,
     {| store := (next c (with_profile config st tok user)).2; remote := rs3;
        trace := [EvGetUser auth; EvVerifyIDToken auth;
                  EvSet (ContextIDKey config) (AString (json_Marshal_Token tok));
                  EvSet "auth-provider" (AString "firebase");
                  EvGetUser (UID tok);
                  EvSet (ContextUserKey config) (AString (json_Marshal_User user));
                  EvNext (with_profile config st tok user)] |}).
Proof.
  intros Hskip Hex Hver Hwant Hget. run_handler. rewrite Hskip, Hex. simpl.
  destruct (Client_GetUser client auth rs) as [u rs1]; simpl in *.
  rewrite Hver. simpl. rewrite (bool_decide_eq_true_2 _ Hwant). simpl.
  rewrite Hget. simpl. fold (with_claims config st tok). fold (with_profile config st tok user).
  by destruct (next c (with_profile config st tok user)).
Qed.

End Paths.

(** ** Construction *)

Lemma strings_Split_nonempty (s : string) (sep : ascii) : strings_Split s sep <> [].
Proof.
  destruct s as [|a s]; simpl; [done|].
  destruct (decide (a = sep)); [done|]. by destruct (strings_Split s sep).
Qed.

Lemma strings_Split_no_sep (s : string) (sep : ascii) :
  has_byte sep s = false -> strings_Split s sep = [s].
Proof.
  induction s as [|a s IH]; simpl; [done|].
  intros [Ha Hs]%orb_false_elim. apply bool_decide_eq_false in Ha.
  destruct (decide (a = sep)); [done|]. by rewrite (IH Hs).
Qed.

Lemma strings_Split_sep (tag rest : string) (sep : ascii) :
  has_byte sep tag = false ->
  strings_Split (tag +:+ String sep rest) sep = tag :: strings_Split rest sep.
Proof.
  induction tag as [|a tag IH]; intros Htag.
  - rewrite app_nil. simpl. by rewrite decide_True.
  - simpl in Htag. apply orb_false_elim in Htag as [Ha Htag].
    apply bool_decide_eq_false in Ha.
    rewrite app_cons. simpl. rewrite decide_False by done. by rewrite (IH Htag).
Qed.

Section Construction.
Context `{P : Platform}.

Lemma applyDefaults_Skipper (config : Config) :
  Skipper (applyDefaults config) =
    Some (default middleware_DefaultSkipper (Skipper config)).
Proof. unfold applyDefaults; simpl. by destruct (Skipper config). Qed.

Lemma applyDefaults_skips (config : Config) (c : Request) (st : Store) :
  skips (applyDefaults config) c st = skips config c st.
Proof. unfold skips. rewrite applyDefaults_Skipper. by destruct (Skipper config). Qed.

Lemma applyDefaults_ContextUserKey (config : Config) :
  ContextUserKey config = "" -> ContextUserKey (applyDefaults config) = "user".
Proof. intros H. simpl. by rewrite H. Qed.

Lemma applyDefaults_TokenLookup (config : Config) :
  TokenLookup config = "" ->
  TokenLookup (applyDefaults config) = "header:Authorization".
Proof. intros H. simpl. by rewrite H. Qed.

Lemma applyDefaults_AuthScheme (config : Config) :
  AuthScheme config = "" -> AuthScheme (applyDefaults config) = "Bearer".
Proof. intros H. simpl. by rewrite H. Qed.

Lemma applyDefaults_ContextIDKey (config : Config) :
  ContextIDKey (applyDefaults config) = ContextIDKey config.
Proof. reflexivity. Qed.

(** The extractor the [switch] of [WithConfig] ends with. *)
Lemma WithConfig_Built (config : Config) (part0 part1 : string) (more : list string)
    (authApp : App) (client : Client) :
  strings_Split (TokenLookup (applyDefaults config)) ":" = part0 :: part1 :: more ->
  CredentialJSON config <> [] ->
  firebase_NewApp (CredentialJSON config) = inl authApp ->
  App_Auth authApp = inl client ->
  WithConfig config =
    Built (fun next =>
      handler (applyDefaults config)
        (if bool_decide (part0 = "query") then tokenFromQuery part1
         else if bool_decide (part0 = "cookie") then tokenFromCookie part1
         else tokenFromHeader part1 (AuthScheme (applyDefaults config)))
        client next).
Proof.
  intros Hparts Hcred Happ Hauth. unfold WithConfig.
  rewrite Hparts. cbn [CredentialJSON applyDefaults].
  rewrite bool_decide_eq_false_2 by (by destruct (CredentialJSON config)).
  by rewrite Happ, Hauth.
Qed.

(** Whatever [WithConfig] returns is the handler closure over the defaulted
    configuration, and was built from a non-empty credential document. *)
Lemma WithConfig_Built_inv (config : Config) (mw : MiddlewareFunc) :
  WithConfig config = Built mw ->
  CredentialJSON config <> [] /\
  exists extractor client,
    mw = fun next => handler (applyDefaults config) extractor client next.
Proof.
  unfold WithConfig.
  destruct (strings_Split _ _) as [|part0 [|part1 more]]; try discriminate.
  cbn [CredentialJSON applyDefaults].
  destruct (bool_decide_reflect (length (CredentialJSON config) = 0)) as [|Hlen];
    [discriminate|].
  destruct (firebase_NewApp _) as [authApp|]; [|discriminate].
  destruct (App_Auth authApp) as [client|]; [|discriminate].
  intros [= <-]. split; [by intros Hnil; rewrite Hnil in Hlen | eauto].
Qed.

End Construction.

(** ** Requests *)

Lemma Header_Get_absent `{P : Platform} (c : Request) (key : string) :
  Header c !! CanonicalMIMEHeaderKey key = None -> Header_Get c key = "".
Proof. intros H. unfold Header_Get. by rewrite H. Qed.

Lemma Cookie_None (c : Request) (name : string) :
  Cookie c name = None <-> forall k, k ∈ Cookies c -> Name k <> name.
Proof.
  unfold Cookie. induction (Cookies c) as [|k0 ks IH]; simpl.
  - split; [intros _ k Hk; inversion Hk | done].
  - destruct (bool_decide_reflect (Name k0 = name)) as [Heq|Hne].
    + split; [discriminate|]. intros Hall. destruct (Hall k0); [left | done].
    + rewrite IH. split.
      * intros Hall k [->|Hk]%elem_of_cons; auto.
      * intros Hall k Hk. apply Hall. by right.
Qed.

(** ** The claims *)

(** C1 (as amended).  Header extraction with scheme "Bearer": the value
    "Bearer abc123" yields the token "abc123"; the value "Basic abc123" fails
    with the Missing Token error, whose code is 400.  In general extraction
    succeeds exactly when the header value is the scheme, one more byte and a
    non-empty rest; the token is that rest, and the byte after the scheme is
    dropped whatever it is.  Every other value fails with Missing Token. *)
Theorem tokenFromHeader_drops_scheme_and_next_byte `{P : Platform}
    (header : string) (c : Request) :
  (Header_Get c header = "Bearer abc123" ->
   tokenFromHeader header "Bearer" c = ("abc123", None)) /\
  (Header_Get c header = "Basic abc123" ->
   tokenFromHeader header "Bearer" c = ("", Some ErrTokenMissing) /\
   error_Code ErrTokenMissing = 400%Z) /\
  (forall authScheme tok,
     tokenFromHeader header authScheme c = (tok, None) <->
     exists sep, Header_Get c header = authScheme +:+ String sep tok /\ tok <> "") /\
  (forall authScheme,
     (forall sep tok, tok <> "" -> Header_Get c header <> authScheme +:+ String sep tok) ->
     tokenFromHeader header authScheme c = ("", Some ErrTokenMissing)).
Proof.
  split; [|split; [|split]].
  - intros H. unfold tokenFromHeader. by rewrite H.
  - intros H. unfold tokenFromHeader. by rewrite H.
  - intros authScheme tok. apply tokenFromHeader_Some.
  - intros authScheme Hno.
    destruct (tokenFromHeader_cases header authScheme c) as [|[tok Htok]]; [done|].
    apply tokenFromHeader_Some in Htok as [sep [Hauth Hne]].
    by destruct (Hno sep tok Hne).
Qed.

Lemma tokenFromHeader_drops_scheme_and_next_byte_witness :
  tokenFromHeader (P := Demo.platform true) "Authorization" "Bearer"
    (Demo.bearer "Bearer abc123") = ("abc123", None) /\
  tokenFromHeader (P := Demo.platform true) "Authorization" "Bearer"
    (Demo.bearer "Basic abc123") = ("", Some ErrTokenMissing) /\
  tokenFromHeader (P := Demo.platform true) "authorization" "Token"
    (Demo.bearer "Token=xyz") = ("xyz", None) /\
  tokenFromHeader (P := Demo.platform true) "Authorization" "Bearer"
    (Demo.bearer "Bearer ") = ("", Some ErrTokenMissing).
Proof.
  split; [|split; [|split]].
  - apply (proj1 (tokenFromHeader_drops_scheme_and_next_byte
                    (P := Demo.platform true)
                    "Authorization" (Demo.bearer "Bearer abc123"))).
    vm_compute. reflexivity.
  - apply (proj1 (proj2 (tokenFromHeader_drops_scheme_and_next_byte
                           (P := Demo.platform true)
                           "Authorization" (Demo.bearer "Basic abc123")))).
    vm_compute. reflexivity.
  - apply (proj1 (proj2 (proj2 (tokenFromHeader_drops_scheme_and_next_byte
                                  (P := Demo.platform true)
                                  "authorization" (Demo.bearer "Token=xyz"))))).
    exists "="%char. split; [vm_compute; reflexivity | discriminate].
  - apply (proj2 (proj2 (proj2 (tokenFromHeader_drops_scheme_and_next_byte
                                  (P := Demo.platform true)
                                  "Authorization" (Demo.bearer "Bearer "))))).
    intros sep tok Hne. vm_compute. intros [= _ <-]. done.
Defined.

(** C1, as first stated, fails: with scheme "Bearer" the header value
    "Bearerabc123" is accepted, and the token is "bc123". *)
Lemma tokenFromHeader_accepts_missing_separator :
  tokenFromHeader (P := Demo.platform true) "Authorization" "Bearer"
    (Demo.bearer "Bearerabc123") = ("bc123", None) /\
  tokenFromHeader (P := Demo.platform true) "Authorization" "Bearer"
    (Demo.bearer "Bearerabc123") <> ("", Some ErrTokenMissing).
Proof. split; [vm_compute; reflexivity | vm_compute; discriminate]. Qed.

(** Splits a run of the handler along the answers of the identity provider
    and rewrites it with the matching path lemma. *)
Ltac by_path config extractor client next c st rs Hskip Hex :=
  let tok := fresh "tok" in
  let err := fresh "err" in
  let rs2 := fresh "rs2" in
  let Hver := fresh "Hver" in
  let auth := match type of Hex with _ = (?a, _) => a end in
  destruct (Client_VerifyIDToken client auth (Client_GetUser client auth rs).2)
    as [[tok|err] rs2] eqn:Hver;
  [ let Hwant := fresh "Hwant" in
    destruct (decide (Header_Get c "X-GetUser" = "true")) as [Hwant|Hwant];
    [ let user := fresh "user" in
      let err := fresh "err" in
      let rs3 := fresh "rs3" in
      let Hget := fresh "Hget" in
      destruct (Client_GetUser client (UID tok) rs2) as [[user|err] rs3] eqn:Hget;
      [ rewrite (handler_profile_fetched config extractor client next c st rs
                   auth tok user rs2 rs3 Hskip Hex Hver Hwant Hget)
      | rewrite (handler_profile_failed config extractor client next c st rs
                   auth tok err rs2 rs3 Hskip Hex Hver Hwant Hget) ]
    | rewrite (handler_verified config extractor client next c st rs
                 auth tok rs2 Hskip Hex Hver Hwant) ]
  | rewrite (handler_rejected config extractor client next c st rs
               auth err rs2 Hskip Hex Hver) ].

(** C2 (what the code does).  For a request that is not skipped and whose
    token [auth] was extracted, the handler calls the verifier exactly once,
    but that is not its only remote call: it first calls the profile fetch
    with the raw token as subject identifier, whether or not the
    detail-request header is set, and then possibly the profile fetch of the
    verified subject. *)
Theorem handler_remote_calls `{P : Platform} (config : Config)
    (extractor : tokenExtractorFunc) (client : Client) (next : HandlerFunc)
    (c : Request) (st : Store) (rs : RemoteState) (auth : string) :
  skips config c st = false ->
  extractor c = (auth, None) ->
  let tr := trace (handler config extractor client next c (init st rs)).2 in
  count is_verify tr = 1 /\
  exists more,
    only is_remote tr = EvGetUser auth :: EvVerifyIDToken auth :: more /\
    (more = [] \/
     exists tok, Header_Get c "X-GetUser" = "true" /\ more = [EvGetUser (UID tok)]).
Proof.
  intros Hskip Hex tr. subst tr.
  by_path config extractor client next c st rs Hskip Hex; simpl;
    (split; [reflexivity|]); eexists; (split; [reflexivity|]); eauto.
Qed.

Lemma handler_remote_calls_witness :
  let tr := trace (handler (P := Demo.platform true) (applyDefaults Demo.config0)
                     (tokenFromHeader (P := Demo.platform true) "Authorization" "Bearer") tt
                     Demo.ok_handler (Demo.bearer "Bearer good") (Demo.start true)).2 in
  count is_verify tr = 1 /\
  exists more,
    only is_remote tr = EvGetUser "good" :: EvVerifyIDToken "good" :: more /\
    (more = [] \/
     exists tok, Header_Get (P := Demo.platform true)
                   (Demo.bearer "Bearer good") "X-GetUser" = "true" /\
                 more = [EvGetUser (UID (Platform := Demo.platform true) tok)]).
Proof.
  apply (handler_remote_calls (P := Demo.platform true)); reflexivity.
Defined.

(** C2 at concrete requests.  A bearer token and no detail-request header:
    two remote calls, the first one a profile fetch.  The same token with the
    detail-request header: two profile fetches around one verification. *)
Example plain_request_fetches_profile_first :
  only is_remote
    (trace (handler (P := Demo.platform true) (applyDefaults Demo.config0)
              (tokenFromHeader (P := Demo.platform true) "Authorization" "Bearer") tt
              Demo.ok_handler (Demo.bearer "Bearer good") (Demo.start true)).2)
  = [EvGetUser "good"; EvVerifyIDToken "good"].
Proof. vm_compute. reflexivity. Qed.

Example detail_request_fetches_profile_twice :
  let tr := trace (handler (P := Demo.platform true) (applyDefaults Demo.config0)
                     (tokenFromHeader (P := Demo.platform true) "Authorization" "Bearer")
                     tt Demo.ok_handler (Demo.bearer_detail "Bearer good")
                     (Demo.start true)).2 in
  only is_remote tr = [EvGetUser "good"; EvVerifyIDToken "good"; EvGetUser "uid-1"] /\
  count is_getuser tr = 2 /\ count is_verify tr = 1.
Proof. vm_compute. repeat split. Qed.

(** C3 (as amended).  Every request ends in one of two ways.  Either the
    next handler is invoked exactly once: at once and with nothing written
    when the request is skipped, otherwise after the identity claims and the
    provider tag (and, for a detail request, the user profile) have been
    written.  Or the request fails with an error response and the next
    handler is not invoked.  Which failure leaves what: when extraction
    fails, or when the verifier rejects the token, nothing has been written
    and the store is as it was; when the detail-request header is "true" and
    the profile fetch fails, the response is 401 and the identity claims and
    the provider tag, in that order and nothing else, have been written. *)
Theorem handler_completes_or_fails `{P : Platform} (config : Config)
    (extractor : tokenExtractorFunc) (client : Client) (next : HandlerFunc)
    (c : Request) (st : Store) (rs : RemoteState) :
  let r := handler config extractor client next c (init st rs) in
  let tr := trace r.2 in
  let claims tok :=
    [EvSet (ContextIDKey config) (AString (json_Marshal_Token tok));
     EvSet "auth-provider" (AString "firebase")] in
  (((skips config c st = true /\ only is_set tr = [] /\
     only is_next tr = [EvNext st]) \/
    (exists tok,
       only is_set tr = claims tok /\
       only is_next tr = [EvNext (with_claims config st tok)]) \/
    (exists tok user,
       only is_set tr =
         (claims tok ++
          [EvSet (ContextUserKey config) (AString (json_Marshal_User user))])%list /\
       only is_next tr = [EvNext (with_profile config st tok user)]))
   \/
   (exists err,
      r.1 = Some err /\ only is_next tr = [] /\
      ((only is_set tr = [] /\ store r.2 = st) \/
       (exists tok cause,
          Header_Get c "X-GetUser" = "true" /\
          err = unauthorized cause /\ error_Code err = 401%Z /\
          only is_set tr = claims tok /\
          store r.2 = with_claims config st tok)))) /\
  (forall auth err,
     skips config c st = false ->
     extractor c = (auth, Some err) ->
     r.1 = Some err /\ only is_next tr = [] /\
     only is_set tr = [] /\ store r.2 = st) /\
  (forall auth err rs2,
     skips config c st = false ->
     extractor c = (auth, None) ->
     Client_VerifyIDToken client auth (Client_GetUser client auth rs).2 = (inr err, rs2) ->
     r.1 = Some (unauthorized err) /\ error_Code (unauthorized err) = 401%Z /\
     only is_next tr = [] /\
     only is_set tr = [] /\ store r.2 = st) /\
  (forall auth tok err rs2 rs3,
     skips config c st = false ->
     extractor c = (auth, None) ->
     Client_VerifyIDToken client auth (Client_GetUser client auth rs).2 = (inl tok, rs2) ->
     Header_Get c "X-GetUser" = "true" ->
     Client_GetUser client (UID tok) rs2 = (inr err, rs3) ->
     r.1 = Some (unauthorized err) /\ error_Code (unauthorized err) = 401%Z /\
     only is_next tr = [] /\
     only is_set tr = claims tok /\
     store r.2 = with_claims config st tok).
Proof.
  intros r tr claims. subst r tr claims.
  split; [|split; [|split]].
  - destruct (skips config c st) eqn:Hskip.
    { rewrite handler_skipped by done. left; left. by simpl. }
    destruct (extractor c) as [auth [err|]] eqn:Hex.
    { rewrite (handler_missing _ _ _ _ _ _ _ auth err) by done.
      right. exists err. simpl. auto. }
    by_path config extractor client next c st rs Hskip Hex; simpl.
    + left; right; right. by do 2 eexists.
    + right. eexists. split; [reflexivity|]. split; [reflexivity|].
      right. by do 2 eexists.
    + left; right; left. by eexists.
    + right. eexists. split; [reflexivity|]. split; [reflexivity|]. by left.
  - intros auth err Hskip Hex.
    by rewrite (handler_missing config extractor client next c st rs auth err).
  - intros auth err rs2 Hskip Hex Hver.
    by rewrite (handler_rejected config extractor client next c st rs auth err rs2).
  - intros auth tok err rs2 rs3 Hskip Hex Hver Hwant Hget.
    by rewrite (handler_profile_failed config extractor client next c st rs
                  auth tok err rs2 rs3).
Qed.

Lemma handler_completes_or_fails_witness :
  let r := handler (P := Demo.platform false) (applyDefaults (Demo.with_lookup ""))
             (tokenFromHeader (P := Demo.platform false) "Authorization" "Bearer") tt
             Demo.ok_handler (Demo.bearer_detail "Bearer good")
             (init (P := Demo.platform false) ∅ 0%nat) in
  r.1 = Some (unauthorized (errorString "user not found")) /\
  error_Code (unauthorized (errorString "user not found")) = 401%Z /\
  only is_next (trace r.2) = [] /\
  only is_set (trace r.2) =
    [EvSet "claims" (AString "{uid:uid-1}");
     EvSet "auth-provider" (AString "firebase")] /\
  store r.2 = with_claims (P := Demo.platform false)
                (applyDefaults (Demo.with_lookup "")) ∅
                {| Demo.tokUID := "uid-1"; Demo.tokEmail := "alice@example.org" |}.
Proof.
  apply (proj2 (proj2 (proj2
           (handler_completes_or_fails (P := Demo.platform false)
              (applyDefaults (Demo.with_lookup ""))
              (tokenFromHeader (P := Demo.platform false) "Authorization" "Bearer")
              tt Demo.ok_handler (Demo.bearer_detail "Bearer good") ∅ 0%nat)))
           "good"
           {| Demo.tokUID := "uid-1"; Demo.tokEmail := "alice@example.org" |}
           (errorString "user not found") 2%nat 3%nat
           eq_refl eq_refl eq_refl eq_refl eq_refl).
Defined.

(** C3, as first stated, fails: a detail request whose token verifies and
    whose profile fetch fails is answered 401, and by then the identity
    claims and the provider tag are in the context. *)
Lemma profile_failure_keeps_written_entries :
  match Demo.serve false (WithConfig (Demo.with_lookup ""))
          (Demo.bearer_detail "Bearer good") with
  | Some r =>
      error_Code <$> r.1 = Some 401%Z /\
      store r.2 !! "claims" = Some (AString "{uid:uid-1}") /\
      store r.2 !! "auth-provider" = Some (AString "firebase") /\
      store r.2 <> ∅
  | None => False
  end.
Proof.
  vm_compute. repeat split. discriminate.
Qed.



(** C5.  A request that is not skipped and whose token was extracted: when
    the verifier rejects the token, and when the token verifies but the
    profile fetch asked for by a detail-request header equal to "true"
    fails, the handler returns one error, 401 with the fixed message and the
    underlying error as [Internal], and the next handler is not invoked. *)
Theorem handler_unauthorized `{P : Platform} (config : Config)
    (extractor : tokenExtractorFunc) (client : Client) (next : HandlerFunc)
    (c : Request) (st : Store) (rs : RemoteState) (auth : string) :
  skips config c st = false ->
  extractor c = (auth, None) ->
  let r := handler config extractor client next c (init st rs) in
  let denied err :=
    r.1 = Some (HTTPError 401 "Invalid or expired Firebase AuthID TOKEN" (Some err)) /\
    count is_next (trace r.2) = 0 in
  (forall err rs2,
     Client_VerifyIDToken client auth (Client_GetUser client auth rs).2 = (inr err, rs2) ->
     denied err) /\
  (forall tok err rs2 rs3,
     Client_VerifyIDToken client auth (Client_GetUser client auth rs).2 = (inl tok, rs2) ->
     Header_Get c "X-GetUser" = "true" ->
     Client_GetUser client (UID tok) rs2 = (inr err, rs3) ->
     denied err).
Proof.
  intros Hskip Hex r denied. subst r denied. split.
  - intros err rs2 Hver.
    by rewrite (handler_rejected config extractor client next c st rs auth err rs2).
  - intros tok err rs2 rs3 Hver Hwant Hget.
    by rewrite (handler_profile_failed config extractor client next c st rs
                  auth tok err rs2 rs3).
Qed.

Lemma handler_unauthorized_witness :
  (handler (P := Demo.platform true) (applyDefaults Demo.config0)
     (tokenFromHeader (P := Demo.platform true) "Authorization" "Bearer") tt
     Demo.ok_handler (Demo.bearer "Bearer forged") (Demo.start true)).1
  = Some (HTTPError 401 "Invalid or expired Firebase AuthID TOKEN"
            (Some (errorString "failed to verify token signature"))) /\
  (handler (P := Demo.platform false) (applyDefaults Demo.config0)
     (tokenFromHeader (P := Demo.platform false) "Authorization" "Bearer") tt
     Demo.ok_handler (Demo.bearer_detail "Bearer good") (Demo.start false)).1
  = Some (HTTPError 401 "Invalid or expired Firebase AuthID TOKEN"
            (Some (errorString "user not found"))).
Proof.
  split.
  - apply (proj1 (handler_unauthorized (P := Demo.platform true)
                    (applyDefaults Demo.config0)
                    (tokenFromHeader (P := Demo.platform true) "Authorization" "Bearer")
                    tt Demo.ok_handler (Demo.bearer "Bearer forged") ∅ 0%nat "forged"
                    eq_refl eq_refl)
             (errorString "failed to verify token signature") 2%nat eq_refl).
  - apply (proj2 (handler_unauthorized (P := Demo.platform false)
                    (applyDefaults Demo.config0)
                    (tokenFromHeader (P := Demo.platform false) "Authorization" "Bearer")
                    tt Demo.ok_handler (Demo.bearer_detail "Bearer good") ∅ 0%nat "good"
                    eq_refl eq_refl)
             {| Demo.tokUID := "uid-1"; Demo.tokEmail := "alice@example.org" |}
             (errorString "user not found") 2%nat 3%nat eq_refl eq_refl eq_refl).
Defined.

(** C6 (what the code does).  Built from a configuration whose fields are
    all unset but the credentials, the middleware reads the default header
    with the default scheme, yet stores the verified claims under the empty
    key: the identity key is the one field that gets no default, and
    "id-key" stays unset. *)
Theorem WithConfig_leaves_ContextIDKey_empty :
  ContextIDKey (applyDefaults Demo.config0) = "" /\
  ContextUserKey (applyDefaults Demo.config0) = "user" /\
  TokenLookup (applyDefaults Demo.config0) = "header:Authorization" /\
  AuthScheme (applyDefaults Demo.config0) = "Bearer" /\
  match Demo.serve true (WithConfig Demo.config0) (Demo.bearer "Bearer good") with
  | Some r =>
      r.1 = None /\
      only is_set (trace r.2) =
        [EvSet "" (AString "{uid:uid-1}");
         EvSet "auth-provider" (AString "firebase")] /\
      store r.2 !! "id-key" = None /\
      store r.2 !! "" = Some (AString "{uid:uid-1}")
  | None => False
  end.
Proof. vm_compute. repeat split. Qed.

(** C7.  When the configured skip predicate answers true for a request, the
    middleware does one thing: it invokes the next handler on the store as it
    found it.  It writes nothing, makes no remote call, and returns what the
    next handler returns. *)
Theorem WithConfig_skipper_bypasses `{P : Platform} (config : Config)
    (mw : MiddlewareFunc) (skipper : middleware_Skipper) (next : HandlerFunc)
    (c : Request) (st : Store) (rs : RemoteState) :
  WithConfig config = Built mw ->
  Skipper config = Some skipper ->
  skipper c st = true ->
  let r := mw next c (init st rs) in
  trace r.2 = [EvNext st] /\
  count is_set (trace r.2) = 0 /\
  count is_remote (trace r.2) = 0 /\
  remote r.2 = rs /\
  r.1 = (next c st).1 /\
  store r.2 = (next c st).2.
Proof.
  intros Hbuilt Hskipper Hskip r. subst r.
  apply WithConfig_Built_inv in Hbuilt as [_ (extractor & client & ->)].
  rewrite handler_skipped; [done|].
  rewrite applyDefaults_skips. unfold skips. by rewrite Hskipper.
Qed.

Lemma WithConfig_skipper_bypasses_witness :
  match Demo.serve true (WithConfig (Demo.with_skipper (fun _ _ => true)))
          (Demo.bearer "Bearer forged") with
  | Some r => trace r.2 = [EvNext ∅] /\ r.1 = None /\ store r.2 = ∅
  | None => False
  end.
Proof.
  destruct (WithConfig (P := Demo.platform true)
              (Demo.with_skipper (fun _ _ => true))) as [mw|p] eqn:Hbuilt;
    [|vm_compute in Hbuilt; discriminate].
  destruct (WithConfig_skipper_bypasses (P := Demo.platform true)
              (Demo.with_skipper (fun _ _ => true)) mw (fun _ _ => true)
              Demo.ok_handler (Demo.bearer "Bearer forged") ∅ 0%nat
              Hbuilt eq_refl eq_refl)
    as (Htrace & _ & _ & _ & Hres & Hstore).
  unfold Demo.serve, Demo.start. auto.
Defined.

(** C8 (as amended).  For every locator that has a ':' and whose source tag,
    the text before the first ':', is neither "query" nor "cookie",
    construction with valid credentials succeeds and selects header
    extraction; the header name is the text after that ':' up to the next
    ':' or the end. *)
Theorem WithConfig_other_source_reads_header `{P : Platform} (config : Config)
    (tag rest : string) (authApp : App) (client : Client) :
  TokenLookup config = tag +:+ String ":" rest ->
  has_byte ":" tag = false ->
  tag <> "query" ->
  tag <> "cookie" ->
  CredentialJSON config <> [] ->
  firebase_NewApp (CredentialJSON config) = inl authApp ->
  App_Auth authApp = inl client ->
  exists name more,
    strings_Split rest ":" = name :: more /\
    (has_byte ":" rest = false -> name = rest) /\
    WithConfig config =
      Built (fun next =>
        handler (applyDefaults config)
          (tokenFromHeader name (AuthScheme (applyDefaults config))) client next).
Proof.
  intros Hlookup Htag Hquery Hcookie Hcred Happ Hauth.
  destruct (strings_Split rest ":") as [|name more] eqn:Hrest;
    [by destruct (strings_Split_nonempty rest ":")|].
  exists name, more. split; [done|]. split.
  { intros Hno. rewrite (strings_Split_no_sep _ _ Hno) in Hrest. congruence. }
  assert (Hparts : strings_Split (TokenLookup (applyDefaults config)) ":"
                   = tag :: name :: more).
  { cbn [TokenLookup applyDefaults]. rewrite Hlookup.
    rewrite bool_decide_eq_false_2 by (by destruct tag).
    by rewrite strings_Split_sep, Hrest. }
  rewrite (WithConfig_Built config tag name more authApp client) by done.
  by rewrite !bool_decide_eq_false_2 by done.
Qed.

Lemma WithConfig_other_source_reads_header_witness :
  exists name more,
    strings_Split "X-Token:rest" ":" = name :: more /\
    (has_byte ":" "X-Token:rest" = false -> name = "X-Token:rest") /\
    WithConfig (P := Demo.platform true) (Demo.with_lookup "bearer:X-Token:rest") =
      Built (fun next =>
        handler (P := Demo.platform true)
          (applyDefaults (Demo.with_lookup "bearer:X-Token:rest"))
          (tokenFromHeader (P := Demo.platform true) name
             (AuthScheme (applyDefaults (Demo.with_lookup "bearer:X-Token:rest"))))
          tt next).
Proof.
  apply (WithConfig_other_source_reads_header (P := Demo.platform true)
           (Demo.with_lookup "bearer:X-Token:rest") "bearer" "X-Token:rest"
           Demo.creds tt);
    first [reflexivity | discriminate].
Defined.

(** C8, as first stated, fails: a non-empty locator without ':' whose text
    is neither "query" nor "cookie", with valid credentials, does not
    construct; reading the second part of the split panics. *)
Lemma WithConfig_panics_without_colon :
  TokenLookup (Demo.with_lookup "Authorization") <> "" /\
  strings_Split (TokenLookup (Demo.with_lookup "Authorization")) ":" = ["Authorization"] /\
  CredentialJSON (Demo.with_lookup "Authorization") <> [] /\
  firebase_NewApp (Platform := Demo.platform true)
    (CredentialJSON (Demo.with_lookup "Authorization")) = inl Demo.creds /\
  App_Auth (Platform := Demo.platform true) Demo.creds = inl tt /\
  WithConfig (P := Demo.platform true) (Demo.with_lookup "Authorization") =
    Panicked (PanicIndexOutOfRange 1 1).
Proof. repeat split; try discriminate. Qed.

(** C9.  With an empty credential document [WithConfig] never returns a
    middleware: it panics, with the message that names the missing
    credentials or, when the locator has no ':', earlier at the split.  No
    handler exists that could report the failure on a request. *)
Theorem WithConfig_requires_credentials `{P : Platform} (config : Config) :
  length (CredentialJSON config) = 0 ->
  (forall mw, WithConfig config <> Built mw) /\
  (WithConfig config =
     Panicked (PanicString "echo: FirebaseAuth middleware requires CredentialJSON") \/
   exists n, WithConfig config = Panicked (PanicIndexOutOfRange 1 n)).
Proof.
  intros Hlen.
  assert (Hempty : CredentialJSON config = []) by (by destruct (CredentialJSON config)).
  split.
  - intros mw [Hcred _]%WithConfig_Built_inv. done.
  - unfold WithConfig.
    destruct (strings_Split _ _) as [|part0 [|part1 more]]; [right; eauto ..|].
    left. cbn [CredentialJSON applyDefaults]. by rewrite Hempty.
Qed.

Lemma WithConfig_requires_credentials_witness :
  (forall mw, FirebaseAuth (P := Demo.platform true) <> Built mw) /\
  (FirebaseAuth (P := Demo.platform true) =
     Panicked (PanicString "echo: FirebaseAuth middleware requires CredentialJSON") \/
   exists n, FirebaseAuth (P := Demo.platform true) = Panicked (PanicIndexOutOfRange 1 n)).
Proof.
  apply (WithConfig_requires_credentials (P := Demo.platform true)
           DefaultFirebaseAuthConfig).
  reflexivity.
Defined.

(** C10.  Cookie extraction fails, with the Missing Token error, exactly
    when the request has no cookie of the given name.  A cookie that is there
    with an empty value is extracted as the empty string, and a handler that
    does not skip the request sends that empty string to the verifier.  Query
    extraction differs: a parameter that is there with an empty value fails
    with Missing Token. *)
Theorem tokenFromCookie_fails_only_when_absent `{P : Platform}
    (name : string) (c : Request) :
  ((tokenFromCookie name c).2 <> None <->
   forall k, k ∈ Cookies c -> Name k <> name) /\
  ((tokenFromCookie name c).2 <> None ->
   tokenFromCookie name c = ("", Some ErrTokenMissing)) /\
  (forall k,
     Cookie c name = Some k -> Value k = "" ->
     tokenFromCookie name c = ("", None) /\
     forall config client next st rs,
       skips config c st = false ->
       EvVerifyIDToken "" ∈
         trace (handler config (tokenFromCookie name) client next c (init st rs)).2) /\
  (forall param vs,
     Query c !! param = Some ("" :: vs) ->
     tokenFromQuery param c = ("", Some ErrTokenMissing)).
Proof.
  split; [|split; [|split]].
  - rewrite <- Cookie_None. unfold tokenFromCookie.
    destruct (Cookie c name); simpl; split; congruence.
  - unfold tokenFromCookie. destruct (Cookie c name); simpl; congruence.
  - intros k Hk Hval.
    assert (Hex : tokenFromCookie name c = ("", None)).
    { unfold tokenFromCookie. by rewrite Hk, Hval. }
    split; [exact Hex|]. intros config client next st rs Hskip.
    by_path config (tokenFromCookie name) client next c st rs Hskip Hex; simpl;
      set_solver.
  - intros param vs Hq. unfold tokenFromQuery, QueryParam. by rewrite Hq.
Qed.

Lemma tokenFromCookie_fails_only_when_absent_witness :
  tokenFromCookie "token" (Demo.with_cookie "token" "") = ("", None) /\
  EvVerifyIDToken "" ∈
    trace (handler (P := Demo.platform true) (applyDefaults Demo.config0)
             (tokenFromCookie "token") tt Demo.ok_handler
             (Demo.with_cookie "token" "") (Demo.start true)).2 /\
  tokenFromQuery "token" (Demo.with_query "token" "") = ("", Some ErrTokenMissing) /\
  tokenFromCookie "token" (Demo.with_cookie "session" "abc")
    = ("", Some ErrTokenMissing).
Proof.
  pose proof (tokenFromCookie_fails_only_when_absent (P := Demo.platform true)
                "token" (Demo.with_cookie "token" ""))
    as (_ & _ & Hpresent & _).
  destruct (Hpresent {| Name := "token"; Value := "" |} eq_refl eq_refl)
    as [Hex Hsent].
  split; [exact Hex|]. split.
  { apply (Hsent (applyDefaults Demo.config0) tt Demo.ok_handler ∅ 0%nat eq_refl). }
  split.
  { apply (proj2 (proj2 (proj2 (tokenFromCookie_fails_only_when_absent
                                  (P := Demo.platform true)
                                  "token" (Demo.with_query "token" ""))))
             "token" []).
    reflexivity. }
  apply (proj1 (proj2 (tokenFromCookie_fails_only_when_absent
                         (P := Demo.platform true)
                         "token" (Demo.with_cookie "session" "abc")))).
  vm_compute. discriminate.
Defined.

(** * Further properties of the code *)

(** ** The locator *)

(** The split has a second part exactly when the separator occurs. *)
Lemma strings_Split_second (s : string) (sep : ascii) :
  has_byte sep s = true <->
  exists part0 part1 more, strings_Split s sep = part0 :: part1 :: more.
Proof.
  induction s as [|a s IH]; simpl.
  - split; [discriminate | by intros (? & ? & ? & ?)].
  - destruct (decide (a = sep)) as [->|Hne].
    + rewrite bool_decide_eq_true_2 by done. simpl. split; [intros _|done].
      destruct (strings_Split s sep) as [|p ps] eqn:Hs;
        [by destruct (strings_Split_nonempty s sep)|]. eauto.
    + rewrite bool_decide_eq_false_2 by done. simpl. rewrite IH.
      destruct (strings_Split s sep) as [|p [|p' ps]].
      * split; by intros (? & ? & ? & ?).
      * split; by intros (? & ? & ? & ?).
      * split; intros _; eauto.
Qed.

Lemma strings_Split_single (s : string) (sep : ascii) :
  has_byte sep s = false -> length (strings_Split s sep) = 1.
Proof. intros H. by rewrite strings_Split_no_sep. Qed.

Lemma has_byte_default_lookup :
  has_byte ":" (TokenLookup DefaultFirebaseAuthConfig) = true.
Proof. reflexivity. Qed.

(** The locator [WithConfig] splits has a ':' exactly when the configured
    one is empty (the default then applies) or has one. *)
Lemma applyDefaults_locator (config : Config) :
  has_byte ":" (TokenLookup (applyDefaults config)) = true <->
  TokenLookup config = "" \/ has_byte ":" (TokenLookup config) = true.
Proof.
  cbn [TokenLookup applyDefaults].
  destruct (bool_decide_reflect (TokenLookup config = "")) as [He|Hne].
  - split; [by left | by intros _].
  - split; [by right | by intros [|]].
Qed.

Section Construction_more.
Context `{P : Platform}.

Lemma extractorFor_cases (part0 part1 authScheme : string) (c : Request) :
  extractorFor part0 part1 authScheme c = ("", Some ErrTokenMissing) \/
  exists tok, extractorFor part0 part1 authScheme c = (tok, None).
Proof.
  unfold extractorFor.
  destruct (bool_decide (part0 = "query")).
  { unfold tokenFromQuery. destruct (bool_decide _); eauto. }
  destruct (bool_decide (part0 = "cookie")).
  { unfold tokenFromCookie. destruct (Cookie c part1); eauto. }
  apply tokenFromHeader_cases.
Qed.

(** What a constructed middleware is made of. *)
Lemma WithConfig_Built_parts (config : Config) (mw : MiddlewareFunc) :
  WithConfig config = Built mw ->
  exists part0 part1 more authApp client,
    strings_Split (TokenLookup (applyDefaults config)) ":" = part0 :: part1 :: more /\
    CredentialJSON config <> [] /\
    firebase_NewApp (CredentialJSON config) = inl authApp /\
    App_Auth authApp = inl client /\
    mw = fun next =>
      handler (applyDefaults config)
        (extractorFor part0 part1 (AuthScheme (applyDefaults config))) client next.
Proof.
  unfold WithConfig.
  destruct (strings_Split _ _) as [|part0 [|part1 more]]; try discriminate.
  cbn [CredentialJSON applyDefaults].
  destruct (bool_decide_reflect (length (CredentialJSON config) = 0)) as [|Hlen];
    [discriminate|].
  destruct (firebase_NewApp _) as [authApp|] eqn:Happ; [|discriminate].
  destruct (App_Auth authApp) as [client|] eqn:Hauth; [|discriminate].
  intros [= <-]. exists part0, part1, more, authApp, client.
  repeat split; try done. by intros Hnil; rewrite Hnil in Hlen.
Qed.

End Construction_more.

(** X1.  [WithConfig] returns a middleware exactly when the locator is empty
    or contains a ':', the credential document is not empty, and the SDK
    builds both the application and the client from it. *)
Theorem WithConfig_succeeds_iff `{P : Platform} (config : Config) :
  (exists mw, WithConfig config = Built mw) <->
  (TokenLookup config = "" \/ has_byte ":" (TokenLookup config) = true) /\
  CredentialJSON config <> [] /\
  exists authApp client,
    firebase_NewApp (CredentialJSON config) = inl authApp /\
    App_Auth authApp = inl client.
Proof.
  rewrite <- applyDefaults_locator. split.
  - intros [mw Hmw].
    apply WithConfig_Built_parts in Hmw
      as (part0 & part1 & more & authApp & client & Hparts & Hcred & Happ & Hauth & _).
    split; [apply strings_Split_second; eauto|]. eauto.
  - intros (Hloc & Hcred & authApp & client & Happ & Hauth).
    apply strings_Split_second in Hloc as (part0 & part1 & more & Hparts).
    eexists. by apply (WithConfig_Built config part0 part1 more authApp client).
Qed.

(** X2.  [WithConfig] panics with "index out of range [1] with length 1"
    exactly when the locator is not empty and has no ':'; neither the
    credentials nor the SDK are looked at before. *)
Theorem WithConfig_index_panic_iff `{P : Platform} (config : Config) :
  WithConfig config = Panicked (PanicIndexOutOfRange 1 1) <->
  TokenLookup config <> "" /\ has_byte ":" (TokenLookup config) = false.
Proof.
  split.
  - intros Hpanic.
    destruct (has_byte ":" (TokenLookup (applyDefaults config))) eqn:Hloc.
    + apply strings_Split_second in Hloc as (part0 & part1 & more & Hparts).
      unfold WithConfig in Hpanic. rewrite Hparts in Hpanic.
      cbn [CredentialJSON applyDefaults] in Hpanic.
      destruct (bool_decide _); [discriminate|].
      destruct (firebase_NewApp _) as [authApp|]; [|discriminate].
      destruct (App_Auth authApp); discriminate.
    + assert (Hnot : ~ (TokenLookup config = "" \/
                        has_byte ":" (TokenLookup config) = true))
        by (rewrite <- applyDefaults_locator; congruence).
      split; [tauto|]. destruct (has_byte ":" (TokenLookup config)); tauto.
  - intros [Hne Hloc]. unfold WithConfig. cbn [TokenLookup applyDefaults].
    rewrite bool_decide_eq_false_2 by done.
    by rewrite (strings_Split_no_sep _ _ Hloc).
Qed.

(** X3.  With a usable locator and a non-empty credential document, a
    failure of the SDK aborts construction with the SDK's error wrapped:
    "error initializing app" when the application cannot be built, "error
    getting Auth client" when the client cannot. *)
Theorem WithConfig_SDK_failure_panics `{P : Platform} (config : Config) :
  (TokenLookup config = "" \/ has_byte ":" (TokenLookup config) = true) ->
  CredentialJSON config <> [] ->
  (forall err,
     firebase_NewApp (CredentialJSON config) = inr err ->
     WithConfig config = Panicked (PanicErrorf "error initializing app: %v" err)) /\
  (forall authApp err,
     firebase_NewApp (CredentialJSON config) = inl authApp ->
     App_Auth authApp = inr err ->
     WithConfig config = Panicked (PanicErrorf "error getting Auth client: %v" err)).
Proof.
  intros Hloc Hcred. apply applyDefaults_locator in Hloc.
  apply strings_Split_second in Hloc as (part0 & part1 & more & Hparts).
  assert (Hlen : length (CredentialJSON config) <> 0)
    by (by destruct (CredentialJSON config)).
  split.
  - intros err Happ. unfold WithConfig. rewrite Hparts.
    cbn [CredentialJSON applyDefaults].
    by rewrite bool_decide_eq_false_2, Happ.
  - intros authApp err Happ Hauth. unfold WithConfig. rewrite Hparts.
    cbn [CredentialJSON applyDefaults].
    by rewrite bool_decide_eq_false_2, Happ, Hauth.
Qed.

Lemma WithConfig_SDK_failure_panics_witness :
  WithConfig (P := DemoSDK.platform false true) Demo.config0 =
    Panicked (PanicErrorf "error initializing app: %v"
                (errorString "cannot parse credentials")) /\
  WithConfig (P := DemoSDK.platform true false) (Demo.with_lookup "cookie:session") =
    Panicked (PanicErrorf "error getting Auth client: %v"
                (errorString "project id is required")).
Proof.
  split.
  - apply (proj1 (WithConfig_SDK_failure_panics (P := DemoSDK.platform false true)
                    Demo.config0 (or_introl eq_refl) ltac:(discriminate))).
    reflexivity.
  - apply (proj2 (WithConfig_SDK_failure_panics (P := DemoSDK.platform true false)
                    (Demo.with_lookup "cookie:session") (or_intror eq_refl)
                    ltac:(discriminate)) Demo.creds).
    + reflexivity.
    + reflexivity.
Defined.


(** X5.  A locator whose source tag is "query" or "cookie" selects the
    extractor of that kind, named by the text after the first ':' up to the
    next ':' or the end; the auth scheme plays no part in it. *)
Theorem WithConfig_query_or_cookie_source `{P : Platform} (config : Config)
    (tag rest : string) (authApp : App) (client : Client) :
  TokenLookup config = tag +:+ String ":" rest ->
  tag = "query" \/ tag = "cookie" ->
  CredentialJSON config <> [] ->
  firebase_NewApp (CredentialJSON config) = inl authApp ->
  App_Auth authApp = inl client ->
  exists name more,
    strings_Split rest ":" = name :: more /\
    WithConfig config =
      Built (fun next =>
        handler (applyDefaults config)
          (if bool_decide (tag = "query") then tokenFromQuery name
           else tokenFromCookie name)
          client next).
Proof.
  intros Hlookup Htag Hcred Happ Hauth.
  assert (Hfree : has_byte ":" tag = false) by (by destruct Htag as [->| ->]).
  destruct (strings_Split rest ":") as [|name more] eqn:Hrest;
    [by destruct (strings_Split_nonempty rest ":")|].
  exists name, more. split; [done|].
  assert (Hparts : strings_Split (TokenLookup (applyDefaults config)) ":"
                   = tag :: name :: more).
  { cbn [TokenLookup applyDefaults]. rewrite Hlookup.
    rewrite bool_decide_eq_false_2 by (by destruct tag).
    by rewrite strings_Split_sep, Hrest. }
  rewrite (WithConfig_Built config tag name more authApp client) by done.
  by destruct Htag as [->| ->].
Qed.

Lemma WithConfig_query_or_cookie_source_witness :
  exists name more,
    strings_Split "access_token" ":" = name :: more /\
    WithConfig (P := Demo.platform true) (Demo.with_lookup "query:access_token") =
      Built (fun next =>
        handler (P := Demo.platform true)
          (applyDefaults (Demo.with_lookup "query:access_token"))
          (if bool_decide ("query" = "query") then tokenFromQuery name
           else tokenFromCookie name)
          tt next).
Proof.
  apply (WithConfig_query_or_cookie_source (P := Demo.platform true)
           (Demo.with_lookup "query:access_token") "query" "access_token"
           Demo.creds tt eq_refl (or_introl eq_refl) ltac:(discriminate)
           eq_refl eq_refl).
Defined.

(** X6.  With the locator left empty the middleware reads the
    "Authorization" header, with the configured scheme or, when that is
    empty too, with "Bearer". *)
Theorem WithConfig_default_locator `{P : Platform} (config : Config)
    (authApp : App) (client : Client) :
  TokenLookup config = "" ->
  CredentialJSON config <> [] ->
  firebase_NewApp (CredentialJSON config) = inl authApp ->
  App_Auth authApp = inl client ->
  WithConfig config =
    Built (fun next =>
      handler (applyDefaults config)
        (tokenFromHeader "Authorization"
           (if bool_decide (AuthScheme config = "") then "Bearer"
            else AuthScheme config))
        client next).
Proof.
  intros Hlookup Hcred Happ Hauth.
  rewrite (WithConfig_Built config "header" "Authorization" [] authApp client);
    try done.
  cbn [TokenLookup applyDefaults]. by rewrite Hlookup.
Qed.

Lemma WithConfig_default_locator_witness :
  WithConfig (P := Demo.platform true) Demo.config0 =
    Built (fun next =>
      handler (P := Demo.platform true) (applyDefaults Demo.config0)
        (tokenFromHeader (P := Demo.platform true) "Authorization"
           (if bool_decide (AuthScheme Demo.config0 = "") then "Bearer"
            else AuthScheme Demo.config0))
        tt next).
Proof.
  apply (WithConfig_default_locator (P := Demo.platform true) Demo.config0
           Demo.creds tt eq_refl ltac:(discriminate) eq_refl eq_refl).
Defined.

(** X7.  Query extraction succeeds exactly when the first value of the
    parameter is not empty, and returns that value; a parameter that is
    absent, has no value or has an empty first value fails with Missing
    Token, whatever its later values are. *)
Theorem tokenFromQuery_first_value (param : string) (c : Request) :
  (forall tok,
     tokenFromQuery param c = (tok, None) <->
     exists vs, Query c !! param = Some (tok :: vs) /\ tok <> "") /\
  ((forall tok vs, Query c !! param = Some (tok :: vs) -> tok = "") ->
   tokenFromQuery param c = ("", Some ErrTokenMissing)).
Proof.
  unfold tokenFromQuery, QueryParam. split.
  - intros tok. destruct (Query c !! param) as [[|v vs]|] eqn:Hq; simpl.
    + split; [discriminate | by intros (? & ? & ?)].
    + destruct (bool_decide_reflect (v = "")) as [->|Hne].
      * split; [discriminate | intros (? & [= <- _] & ?); done].
      * split; [intros [= <-]; eauto | by intros (? & [= <- _] & ?)].
    + split; [discriminate | by intros (? & ? & ?)].
  - intros Hall. destruct (Query c !! param) as [[|v vs]|] eqn:Hq; simpl; try done.
    by rewrite (Hall v vs eq_refl).
Qed.

Lemma tokenFromQuery_first_value_witness :
  tokenFromQuery "token" (Demo.with_query "token" "abc") = ("abc", None) /\
  tokenFromQuery "token" (Demo.with_query "other" "abc") = ("", Some ErrTokenMissing).
Proof.
  split.
  - apply (proj1 (tokenFromQuery_first_value "token" (Demo.with_query "token" "abc"))).
    exists []. split; [reflexivity | discriminate].
  - apply (proj2 (tokenFromQuery_first_value "token" (Demo.with_query "other" "abc"))).
    intros tok vs. vm_compute. discriminate.
Defined.

(** ** The handler, over all its paths *)

(** Splits a run of the handler into its six paths: skipped, extraction
    failed, and the four the identity provider's answers select. *)
Ltac all_paths config extractor client next c st rs :=
  let Hskip := fresh "Hskip" in
  let Hex := fresh "Hex" in
  destruct (skips config c st) eqn:Hskip;
  [ rewrite (handler_skipped config extractor client next c st rs Hskip)
  | let auth := fresh "auth" in
    let err := fresh "err" in
    destruct (extractor c) as [auth [err|]] eqn:Hex;
    [ rewrite (handler_missing config extractor client next c st rs auth err Hskip Hex)
    | by_path config extractor client next c st rs Hskip Hex ] ].

(** Resolves the membership of an event in an explicit trace. *)
Ltac which_event :=
  repeat match goal with
         | H : _ ∈ _ :: _ |- _ => apply elem_of_cons in H as [H|H]
         | H : _ ∈ [] |- _ => by apply elem_of_nil in H
         end;
  try discriminate; simplify_eq.

(** Evaluates the event counts of an explicit trace. *)
Ltac eval_counts :=
  repeat match goal with
         | |- context [count ?p ?tr] =>
             let n := eval vm_compute in (count p tr) in
             change (count p tr) with n
         end.

(** X8.  The handler invokes the next handler at most once; it returns no
    error only if the next handler ran; and the next handler runs only when
    the request is skipped or the verifier accepted the extracted token. *)
Theorem handler_next_only_after_verification `{P : Platform} (config : Config)
    (extractor : tokenExtractorFunc) (client : Client) (next : HandlerFunc)
    (c : Request) (st : Store) (rs : RemoteState) :
  let r := handler config extractor client next c (init st rs) in
  let tr := trace r.2 in
  count is_next tr <= 1 /\
  (r.1 = None -> count is_next tr = 1) /\
  (count is_next tr = 1 ->
   skips config c st = true \/
   exists auth tok rs2,
     extractor c = (auth, None) /\
     Client_VerifyIDToken client auth (Client_GetUser client auth rs).2 = (inl tok, rs2)).
Proof.
  intros r tr. subst r tr.
  all_paths config extractor client next c st rs; simpl; eval_counts;
    (split; [lia|]); (split; [try done|]); intros Hn; try done; eauto 10.
Qed.

(** X9.  Whenever the next handler runs it is the last thing the middleware
    does, and the middleware returns its error and leaves the store as the
    next handler left it. *)
Theorem handler_returns_what_next_returns `{P : Platform} (config : Config)
    (extractor : tokenExtractorFunc) (client : Client) (next : HandlerFunc)
    (c : Request) (st : Store) (rs : RemoteState) (seen : Store) :
  let r := handler config extractor client next c (init st rs) in
  EvNext seen ∈ trace r.2 ->
  last (trace r.2) = Some (EvNext seen) /\
  r.1 = (next c seen).1 /\
  store r.2 = (next c seen).2.
Proof.
  intros r. subst r.
  all_paths config extractor client next c st rs; simpl; intros Hin;
    which_event; done.
Qed.

Lemma handler_returns_what_next_returns_witness :
  let r := handler (P := Demo.platform true) (applyDefaults (Demo.with_lookup ""))
             (tokenFromHeader (P := Demo.platform true) "Authorization" "Bearer") tt
             (fun _ st => (Some (errorString "teapot"), <["seen" := AOther 1]> st))
             (Demo.bearer "Bearer good") (Demo.start true) in
  r.1 = Some (errorString "teapot") /\
  store r.2 !! "seen" = Some (AOther 1).
Proof.
  intros r.
  destruct (handler_returns_what_next_returns (P := Demo.platform true)
              (applyDefaults (Demo.with_lookup ""))
              (tokenFromHeader (P := Demo.platform true) "Authorization" "Bearer") tt
              (fun _ st => (Some (errorString "teapot"), <["seen" := AOther 1]> st))
              (Demo.bearer "Bearer good") ∅ 0%nat
              (with_claims (P := Demo.platform true)
                 (applyDefaults (Demo.with_lookup "")) ∅
                 {| Demo.tokUID := "uid-1"; Demo.tokEmail := "alice@example.org" |}))
    as (_ & Hres & Hstore).
  { vm_compute. repeat (apply elem_of_cons; first [by left | right]). }
  subst r. unfold Demo.start. rewrite Hres, Hstore. split; reflexivity.
Defined.

(** X10.  The handler writes to the context only for a token the verifier
    accepted, and only three things: the serialized claims under the
    identity key, "firebase" under "auth-provider", and, for a detail
    request whose profile was fetched, the serialized profile under the user
    key.  Every value it writes is a string. *)
Theorem handler_writes_only_when_verified `{P : Platform} (config : Config)
    (extractor : tokenExtractorFunc) (client : Client) (next : HandlerFunc)
    (c : Request) (st : Store) (rs : RemoteState) (key : string) (val : any) :
  EvSet key val ∈ trace (handler config extractor client next c (init st rs)).2 ->
  exists auth tok rs2,
    skips config c st = false /\
    extractor c = (auth, None) /\
    Client_VerifyIDToken client auth (Client_GetUser client auth rs).2 = (inl tok, rs2) /\
    ((key = ContextIDKey config /\ val = AString (json_Marshal_Token tok)) \/
     (key = "auth-provider" /\ val = AString "firebase") \/
     (key = ContextUserKey config /\ Header_Get c "X-GetUser" = "true" /\
      exists user rs3,
        Client_GetUser client (UID tok) rs2 = (inl user, rs3) /\
        val = AString (json_Marshal_User user))).
Proof.
  all_paths config extractor client next c st rs; simpl; intros Hin;
    which_event; eauto 15.
Qed.

Lemma handler_writes_only_when_verified_witness :
  exists auth tok rs2,
    skips (applyDefaults (Demo.with_lookup "")) (Demo.bearer "Bearer good") ∅ = false /\
    tokenFromHeader (P := Demo.platform true) "Authorization" "Bearer"
      (Demo.bearer "Bearer good") = (auth, None) /\
    Client_VerifyIDToken (Platform := Demo.platform true) tt auth
      (Client_GetUser (Platform := Demo.platform true) tt auth 0%nat).2 = (inl tok, rs2) /\
    (("claims" = ContextIDKey (applyDefaults (Demo.with_lookup "")) /\
      AString "{uid:uid-1}" = AString (json_Marshal_Token (Platform := Demo.platform true) tok)) \/
     ("claims" = "auth-provider" /\ AString "{uid:uid-1}" = AString "firebase") \/
     ("claims" = ContextUserKey (applyDefaults (Demo.with_lookup "")) /\
      Header_Get (P := Demo.platform true) (Demo.bearer "Bearer good") "X-GetUser" = "true" /\
      exists user rs3,
        Client_GetUser (Platform := Demo.platform true) tt
          (UID (Platform := Demo.platform true) tok) rs2 = (inl user, rs3) /\
        AString "{uid:uid-1}" = AString (json_Marshal_User (Platform := Demo.platform true) user))).
Proof.
  apply (handler_writes_only_when_verified (P := Demo.platform true)
           (applyDefaults (Demo.with_lookup ""))
           (tokenFromHeader (P := Demo.platform true) "Authorization" "Bearer") tt
           Demo.ok_handler (Demo.bearer "Bearer good") ∅ 0%nat
           "claims" (AString "{uid:uid-1}")).
  vm_compute. repeat (apply elem_of_cons; first [by left | right]).
Defined.

(** X11.  The handler touches no other key: under a key that is neither the
    identity key, nor "auth-provider", nor the user key, the next handler
    reads what the store held when the request arrived, and so does whoever
    looks at the store after a request the middleware refused. *)
Theorem handler_leaves_other_keys `{P : Platform} (config : Config)
    (extractor : tokenExtractorFunc) (client : Client) (next : HandlerFunc)
    (c : Request) (st : Store) (rs : RemoteState) (key : string) :
  key <> ContextIDKey config ->
  key <> "auth-provider" ->
  key <> ContextUserKey config ->
  let r := handler config extractor client next c (init st rs) in
  (forall seen, EvNext seen ∈ trace r.2 -> c_Get seen key = c_Get st key) /\
  (count is_next (trace r.2) = 0 -> c_Get (store r.2) key = c_Get st key).
Proof.
  intros Hid Htag Huser r. subst r. unfold c_Get.
  all_paths config extractor client next c st rs; simpl; eval_counts;
    (split; [intros seen Hin; which_event | intros Hn]); try done;
    unfold with_profile, with_claims; by rewrite ?lookup_insert_ne.
Qed.

Lemma handler_leaves_other_keys_witness :
  let r := handler (P := Demo.platform false) (applyDefaults (Demo.with_lookup ""))
             (tokenFromHeader (P := Demo.platform false) "Authorization" "Bearer") tt
             Demo.ok_handler (Demo.bearer_detail "Bearer good")
             (init (P := Demo.platform false) {[ "request-id" := AOther 7 ]} 0%nat) in
  count is_next (trace r.2) = 0 /\
  c_Get (store r.2) "request-id" = Some (AOther 7).
Proof.
  intros r. split; [vm_compute; reflexivity|].
  apply (proj2 (handler_leaves_other_keys (P := Demo.platform false)
                  (applyDefaults (Demo.with_lookup ""))
                  (tokenFromHeader (P := Demo.platform false) "Authorization" "Bearer")
                  tt Demo.ok_handler (Demo.bearer_detail "Bearer good")
                  {[ "request-id" := AOther 7 ]} 0%nat "request-id"
                  ltac:(discriminate) ltac:(discriminate) ltac:(discriminate))).
  vm_compute. reflexivity.
Defined.

(** X12.  A detail request (header exactly "true") whose token verifies and
    whose profile is fetched: the handler writes the claims, the provider
    tag and then the serialized profile, and invokes the next handler once,
    on the store holding all three.  There the user key reads the profile;
    the provider tag and the claims read as written when the keys are
    pairwise distinct. *)
Theorem handler_detail_request_populates `{P : Platform} (config : Config)
    (extractor : tokenExtractorFunc) (client : Client) (next : HandlerFunc)
    (c : Request) (st : Store) (rs rs2 rs3 : RemoteState) (auth : string)
    (tok : Token) (user : UserRecord) :
  skips config c st = false ->
  extractor c = (auth, None) ->
  Client_VerifyIDToken client auth (Client_GetUser client auth rs).2 = (inl tok, rs2) ->
  Header_Get c "X-GetUser" = "true" ->
  Client_GetUser client (UID tok) rs2 = (inl user, rs3) ->
  let r := handler config extractor client next c (init st rs) in
  let populated := with_profile config st tok user in
  only is_set (trace r.2) =
    [EvSet (ContextIDKey config) (AString (json_Marshal_Token tok));
     EvSet "auth-provider" (AString "firebase");
     EvSet (ContextUserKey config) (AString (json_Marshal_User user))] /\
  only is_next (trace r.2) = [EvNext populated] /\
  r.1 = (next c populated).1 /\
  c_Get populated (ContextUserKey config) = Some (AString (json_Marshal_User user)) /\
  (ContextUserKey config <> "auth-provider" ->
   c_Get populated "auth-provider" = Some (AString "firebase")) /\
  (ContextIDKey config <> "auth-provider" ->
   ContextIDKey config <> ContextUserKey config ->
   c_Get populated (ContextIDKey config) = Some (AString (json_Marshal_Token tok))).
Proof.
  intros Hskip Hex Hver Hwant Hget r populated. subst r populated.
  rewrite (handler_profile_fetched config extractor client next c st rs
             auth tok user rs2 rs3) by done.
  simpl. repeat (split; [reflexivity|]). unfold c_Get, with_profile, with_claims.
  split; [by rewrite lookup_insert_eq|]. split.
  - intros Hne. by rewrite lookup_insert_ne, lookup_insert_eq.
  - intros Hne1 Hne2. do 2 (rewrite lookup_insert_ne by done).
    by rewrite lookup_insert_eq.
Qed.

Lemma handler_detail_request_populates_witness :
  let r := handler (P := Demo.platform true) (applyDefaults (Demo.with_lookup ""))
             (tokenFromHeader (P := Demo.platform true) "Authorization" "Bearer") tt
             Demo.ok_handler (Demo.bearer_detail "Bearer good") (Demo.start true) in
  only is_set (trace r.2) =
    [EvSet "claims" (AString "{uid:uid-1}");
     EvSet "auth-provider" (AString "firebase");
     EvSet "user" (AString "{name:alice}")] /\
  r.1 = None.
Proof.
  destruct (handler_detail_request_populates (P := Demo.platform true)
              (applyDefaults (Demo.with_lookup ""))
              (tokenFromHeader (P := Demo.platform true) "Authorization" "Bearer") tt
              Demo.ok_handler (Demo.bearer_detail "Bearer good") ∅ 0%nat 2%nat 3%nat
              "good"
              {| Demo.tokUID := "uid-1"; Demo.tokEmail := "alice@example.org" |}
              "alice" eq_refl eq_refl eq_refl eq_refl eq_refl)
    as (Hsets & _ & Hres & _).
  split; [exact Hsets | exact Hres].
Defined.

(** X13.  With a verified token the profile of the subject is fetched
    exactly when the first value of the "X-GetUser" header is the string
    "true"; any other value, "TRUE" or "1" as well, is no detail request. *)
Theorem handler_detail_header_exact `{P : Platform} (config : Config)
    (extractor : tokenExtractorFunc) (client : Client) (next : HandlerFunc)
    (c : Request) (st : Store) (rs rs2 : RemoteState) (auth : string) (tok : Token) :
  skips config c st = false ->
  extractor c = (auth, None) ->
  Client_VerifyIDToken client auth (Client_GetUser client auth rs).2 = (inl tok, rs2) ->
  only is_remote (trace (handler config extractor client next c (init st rs)).2) =
    ([EvGetUser auth; EvVerifyIDToken auth] ++
     (if bool_decide (Header_Get c "X-GetUser" = "true")
      then [EvGetUser (UID tok)] else []))%list.
Proof.
  intros Hskip Hex Hver.
  destruct (bool_decide_reflect (Header_Get c "X-GetUser" = "true")) as [Hwant|Hwant].
  - destruct (Client_GetUser client (UID tok) rs2) as [[user|err] rs3] eqn:Hget.
    + by rewrite (handler_profile_fetched config extractor client next c st rs
                    auth tok user rs2 rs3).
    + by rewrite (handler_profile_failed config extractor client next c st rs
                    auth tok err rs2 rs3).
  - by rewrite (handler_verified config extractor client next c st rs auth tok rs2).
Qed.

Lemma handler_detail_header_exact_witness :
  only is_remote
    (trace (handler (P := Demo.platform true) (applyDefaults Demo.config0)
              (tokenFromHeader (P := Demo.platform true) "Authorization" "Bearer") tt
              Demo.ok_handler
              (Demo.request [("Authorization", ["Bearer good"]); ("X-Getuser", ["TRUE"])])
              (Demo.start true)).2)
  = [EvGetUser "good"; EvVerifyIDToken "good"].
Proof.
  apply (handler_detail_header_exact (P := Demo.platform true)
           (applyDefaults Demo.config0)
           (tokenFromHeader (P := Demo.platform true) "Authorization" "Bearer") tt
           Demo.ok_handler
           (Demo.request [("Authorization", ["Bearer good"]); ("X-Getuser", ["TRUE"])])
           ∅ 0%nat 2%nat "good"
           {| Demo.tokUID := "uid-1"; Demo.tokEmail := "alice@example.org" |}
           eq_refl eq_refl eq_refl).
Defined.

(** ** The constructed middleware *)

(** X14.  A constructed middleware answers a request it does not skip
    without any remote call exactly when it answers with the Missing Token
    error, and then it has touched nothing: no write, no call of the next
    handler, the store and the identity provider as they were. *)
Theorem WithConfig_no_token_no_call `{P : Platform} (config : Config)
    (mw : MiddlewareFunc) (next : HandlerFunc) (c : Request) (st : Store)
    (rs : RemoteState) :
  WithConfig config = Built mw ->
  skips config c st = false ->
  let r := mw next c (init st rs) in
  count is_remote (trace r.2) = 0 <-> r = (Some ErrTokenMissing, init st rs).
Proof.
  intros Hbuilt Hskip r. subst r.
  apply WithConfig_Built_parts in Hbuilt
    as (part0 & part1 & more & authApp & client & _ & _ & _ & _ & ->).
  rewrite <- applyDefaults_skips in Hskip.
  set (extractor := extractorFor part0 part1 (AuthScheme (applyDefaults config))).
  destruct (extractorFor_cases part0 part1 (AuthScheme (applyDefaults config)) c)
    as [Hex|[auth Hex]]; fold extractor in Hex.
  - by rewrite (handler_missing _ extractor client next c st rs "" ErrTokenMissing).
  - by_path (applyDefaults config) extractor client next c st rs Hskip Hex;
      simpl; eval_counts; (split; [lia | intros [= _ _ _ Htr]; discriminate]).
Qed.

Lemma WithConfig_no_token_no_call_witness :
  handler (P := Demo.platform true) (applyDefaults (Demo.with_lookup "query:token"))
    (tokenFromQuery "token") tt Demo.ok_handler (Demo.bearer "Bearer good")
    (init (P := Demo.platform true) ∅ 0%nat)
  = (Some ErrTokenMissing, init (P := Demo.platform true) ∅ 0%nat).
Proof.
  apply (WithConfig_no_token_no_call (P := Demo.platform true)
           (Demo.with_lookup "query:token")
           (fun next =>
              handler (P := Demo.platform true)
                (applyDefaults (Demo.with_lookup "query:token"))
                (tokenFromQuery "token") tt next)
           Demo.ok_handler (Demo.bearer "Bearer good") ∅ 0%nat eq_refl eq_refl).
  vm_compute. reflexivity.
Defined.

(** X15.  With the locator left empty, a request that is not skipped and
    carries no "Authorization" header is answered with the Missing Token
    error, and nothing else happens. *)
Theorem WithConfig_no_Authorization_header `{P : Platform} (config : Config)
    (mw : MiddlewareFunc) (next : HandlerFunc) (c : Request) (st : Store)
    (rs : RemoteState) :
  TokenLookup config = "" ->
  WithConfig config = Built mw ->
  skips config c st = false ->
  Header c !! CanonicalMIMEHeaderKey "Authorization" = None ->
  mw next c (init st rs) = (Some ErrTokenMissing, init st rs) /\
  error_Code ErrTokenMissing = 400%Z.
Proof.
  intros Hlookup Hbuilt Hskip Habsent. split; [|reflexivity].
  apply WithConfig_Built_parts in Hbuilt
    as (part0 & part1 & more & authApp & client & Hparts & _ & _ & _ & ->).
  cbn [TokenLookup applyDefaults] in Hparts. rewrite Hlookup in Hparts.
  injection Hparts as <- <- <-.
  rewrite <- applyDefaults_skips in Hskip.
  apply (handler_missing _ _ client next c st rs ""); [done|].
  unfold extractorFor, tokenFromHeader.
  rewrite !bool_decide_eq_false_2 by discriminate.
  rewrite (Header_Get_absent _ _ Habsent).
  rewrite (bool_decide_eq_false_2 (_ < _)); [done|]. simpl. lia.
Qed.

Lemma WithConfig_no_Authorization_header_witness :
  handler (P := Demo.platform true) (applyDefaults Demo.config0)
    (tokenFromHeader (P := Demo.platform true) "Authorization" "Bearer") tt
    Demo.ok_handler (Demo.with_cookie "token" "good")
    (init (P := Demo.platform true) ∅ 0%nat)
  = (Some ErrTokenMissing, init (P := Demo.platform true) ∅ 0%nat) /\
  error_Code ErrTokenMissing = 400%Z.
Proof.
  apply (WithConfig_no_Authorization_header (P := Demo.platform true)
           Demo.config0
           (fun next =>
              handler (P := Demo.platform true) (applyDefaults Demo.config0)
                (tokenFromHeader (P := Demo.platform true) "Authorization" "Bearer")
                tt next)
           Demo.ok_handler (Demo.with_cookie "token" "good")
           ∅ 0%nat eq_refl eq_refl eq_refl eq_refl).
Defined.

(** X16.  Every error a constructed middleware produces itself, that is
    without the next handler having run, is one of two: the Missing Token
    error, code 400, or an error of code 401 with the fixed Invalid Token
    message and a cause in [Internal]. *)
Theorem WithConfig_own_errors `{P : Platform} (config : Config)
    (mw : MiddlewareFunc) (next : HandlerFunc) (c : Request) (st : Store)
    (rs : RemoteState) :
  WithConfig config = Built mw ->
  let r := mw next c (init st rs) in
  count is_next (trace r.2) = 0 ->
  r.1 = Some ErrTokenMissing \/
  exists cause,
    r.1 = Some (HTTPError 401 "Invalid or expired Firebase AuthID TOKEN" (Some cause)).
Proof.
  intros Hbuilt r. subst r.
  apply WithConfig_Built_parts in Hbuilt
    as (part0 & part1 & more & authApp & client & _ & _ & _ & _ & ->).
  set (extractor := extractorFor part0 part1 (AuthScheme (applyDefaults config))).
  pose proof (extractorFor_cases part0 part1 (AuthScheme (applyDefaults config)) c)
    as Hcases. fold extractor in Hcases.
  all_paths (applyDefaults config) extractor client next c st rs;
    simpl; eval_counts; intros Hn; try done; eauto.
  destruct Hcases as [[= _ ->]|[tok [=]]]. by left.
Qed.

Lemma WithConfig_own_errors_witness :
  let r := handler (P := Demo.platform true) (applyDefaults Demo.config0)
             (tokenFromHeader (P := Demo.platform true) "Authorization" "Bearer") tt
             Demo.ok_handler (Demo.bearer "Bearer forged")
             (init (P := Demo.platform true) ∅ 0%nat) in
  r.1 = Some ErrTokenMissing \/
  exists cause,
    r.1 = Some (HTTPError 401 "Invalid or expired Firebase AuthID TOKEN" (Some cause)).
Proof.
  apply (WithConfig_own_errors (P := Demo.platform true) Demo.config0
           (fun next =>
              handler (P := Demo.platform true) (applyDefaults Demo.config0)
                (tokenFromHeader (P := Demo.platform true) "Authorization" "Bearer")
                tt next)
           Demo.ok_handler (Demo.bearer "Bearer forged") ∅ 0%nat eq_refl).
  vm_compute. reflexivity.
Defined.

(** X17.  When the identity key is configured as "auth-provider" the claims
    of every verified token are lost: the provider tag is written over them,
    so the store after the two writes is the arrival store with the tag
    alone added.  That is the store a refused detail request leaves; every
    store the next handler sees is that store, or that store with the
    serialized profile added under the user key for a detail request; and
    unless the user key is "auth-provider" too, the next handler reads
    "firebase" under the identity key. *)
Theorem handler_provider_tag_overwrites_claims `{P : Platform} (config : Config)
    (extractor : tokenExtractorFunc) (client : Client) (next : HandlerFunc)
    (c : Request) (st : Store) (rs rs2 : RemoteState) (auth : string) (tok : Token) :
  ContextIDKey config = "auth-provider" ->
  skips config c st = false ->
  extractor c = (auth, None) ->
  Client_VerifyIDToken client auth (Client_GetUser client auth rs).2 = (inl tok, rs2) ->
  let r := handler config extractor client next c (init st rs) in
  let tagged := <["auth-provider" := AString "firebase"]> st in
  with_claims config st tok = tagged /\
  (count is_next (trace r.2) = 0 -> store r.2 = tagged) /\
  (forall seen,
     EvNext seen ∈ trace r.2 ->
     (seen = tagged \/
      exists user,
        Header_Get c "X-GetUser" = "true" /\
        seen = <[ContextUserKey config := AString (json_Marshal_User user)]> tagged) /\
     (ContextUserKey config <> "auth-provider" ->
      c_Get seen (ContextIDKey config) = Some (AString "firebase"))).
Proof.
  intros Hkey Hskip Hex Hver r tagged. subst r.
  assert (Hstore : with_claims config st tok = tagged).
  { unfold with_claims. rewrite Hkey. apply insert_insert_eq. }
  split; [exact Hstore|]. unfold c_Get. rewrite Hkey.
  destruct (decide (Header_Get c "X-GetUser" = "true")) as [Hwant|Hwant].
  - destruct (Client_GetUser client (UID tok) rs2) as [[user|err] rs3] eqn:Hget.
    + rewrite (handler_profile_fetched config extractor client next c st rs
                 auth tok user rs2 rs3) by done.
      unfold with_profile. rewrite Hstore. simpl. eval_counts.
      split; [done|]. intros seen Hin. which_event. split; [right; eauto|].
      intros Hne. by rewrite lookup_insert_ne, lookup_insert_eq.
    + rewrite (handler_profile_failed config extractor client next c st rs
                 auth tok err rs2 rs3) by done.
      rewrite Hstore. simpl. split; [done|]. intros seen Hin. which_event.
  - rewrite (handler_verified config extractor client next c st rs auth tok rs2)
      by done.
    rewrite Hstore. simpl. eval_counts. split; [done|].
    intros seen Hin. which_event. split; [by left|].
    intros _. apply lookup_insert_eq.
Qed.

Lemma handler_provider_tag_overwrites_claims_witness :
  let config := {| Skipper := None; ContextIDKey := "auth-provider";
                   ContextUserKey := "user"; TokenLookup := "header:Authorization";
                   AuthScheme := "Bearer"; CredentialJSON := Demo.creds |} in
  let r := handler (P := Demo.platform false) config
             (tokenFromHeader (P := Demo.platform false) "Authorization" "Bearer") tt
             Demo.ok_handler (Demo.bearer_detail "Bearer good")
             (init (P := Demo.platform false) ∅ 0%nat) in
  with_claims (P := Demo.platform false) config ∅
    {| Demo.tokUID := "uid-1"; Demo.tokEmail := "alice@example.org" |}
  = <["auth-provider" := AString "firebase"]> ∅ /\
  store r.2 = <["auth-provider" := AString "firebase"]> ∅.
Proof.
  intros config r.
  destruct (handler_provider_tag_overwrites_claims (P := Demo.platform false) config
              (tokenFromHeader (P := Demo.platform false) "Authorization" "Bearer") tt
              Demo.ok_handler (Demo.bearer_detail "Bearer good") ∅ 0%nat 2%nat "good"
              {| Demo.tokUID := "uid-1"; Demo.tokEmail := "alice@example.org" |}
              eq_refl eq_refl eq_refl eq_refl)
    as (Hstore & Hrefused & _).
  split; [exact Hstore|]. apply Hrefused. vm_compute. reflexivity.
Defined.

(** X18.  End to end with every optional field left unset.  A request that
    is not skipped, with "Authorization: Bearer <token>" for a token the
    verifier accepts and "X-GetUser: true" for a profile that can be
    fetched, reaches the next handler once; there "user" reads the
    serialized profile and "auth-provider" reads "firebase". *)
Theorem WithConfig_defaults_end_to_end `{P : Platform} (config : Config)
    (mw : MiddlewareFunc) (authApp : App) (client : Client) (next : HandlerFunc)
    (c : Request) (st : Store) (rs rs2 rs3 : RemoteState) (token : string)
    (more : list string) (tok : Token) (user : UserRecord) :
  ContextUserKey config = "" ->
  TokenLookup config = "" ->
  AuthScheme config = "" ->
  firebase_NewApp (CredentialJSON config) = inl authApp ->
  App_Auth authApp = inl client ->
  WithConfig config = Built mw ->
  skips config c st = false ->
  Header c !! CanonicalMIMEHeaderKey "Authorization" = Some (("Bearer " +:+ token) :: more) ->
  token <> "" ->
  Client_VerifyIDToken client token (Client_GetUser client token rs).2 = (inl tok, rs2) ->
  Header_Get c "X-GetUser" = "true" ->
  Client_GetUser client (UID tok) rs2 = (inl user, rs3) ->
  let r := mw next c (init st rs) in
  exists seen,
    only is_next (trace r.2) = [EvNext seen] /\
    r.1 = (next c seen).1 /\
    c_Get seen "user" = Some (AString (json_Marshal_User user)) /\
    c_Get seen "auth-provider" = Some (AString "firebase").
Proof.
  intros Huser Hlookup Hscheme Happ Hauth Hbuilt Hskip Hhdr Hne Hver Hwant Hget r.
  subst r.
  assert (Hcred : CredentialJSON config <> [])
    by (by apply WithConfig_Built_inv in Hbuilt as [? _]).
  rewrite (WithConfig_Built config "header" "Authorization" [] authApp client)
    in Hbuilt; try done;
    [|by cbn [TokenLookup applyDefaults]; rewrite Hlookup].
  injection Hbuilt as <-.
  change (if bool_decide ("header" = "query") then tokenFromQuery "Authorization"
          else if bool_decide ("header" = "cookie") then tokenFromCookie "Authorization"
          else tokenFromHeader "Authorization" (AuthScheme (applyDefaults config)))
    with (tokenFromHeader "Authorization" (AuthScheme (applyDefaults config))).
  rewrite <- applyDefaults_skips in Hskip.
  assert (Hex : tokenFromHeader "Authorization" (AuthScheme (applyDefaults config)) c
                = (token, None)).
  { rewrite applyDefaults_AuthScheme by done. apply tokenFromHeader_Some.
    exists " "%char. split; [|done]. unfold Header_Get. by rewrite Hhdr. }
  rewrite (handler_profile_fetched (applyDefaults config) _ client next c st rs
             token tok user rs2 rs3) by done.
  exists (with_profile (applyDefaults config) st tok user).
  simpl. repeat (split; [reflexivity|]).
  unfold c_Get, with_profile, with_claims.
  rewrite applyDefaults_ContextUserKey by done.
  split; [by rewrite lookup_insert_eq|].
  by rewrite lookup_insert_ne, lookup_insert_eq.
Qed.

Lemma WithConfig_defaults_end_to_end_witness :
  let r := handler (P := Demo.platform true) (applyDefaults Demo.config0)
             (tokenFromHeader (P := Demo.platform true) "Authorization" "Bearer") tt
             Demo.ok_handler (Demo.bearer_detail "Bearer good")
             (init (P := Demo.platform true) ∅ 0%nat) in
  exists seen,
    only is_next (trace r.2) = [EvNext seen] /\
    r.1 = (Demo.ok_handler (Demo.bearer_detail "Bearer good") seen).1 /\
    c_Get seen "user" = Some (AString "{name:alice}") /\
    c_Get seen "auth-provider" = Some (AString "firebase").
Proof.
  apply (WithConfig_defaults_end_to_end (P := Demo.platform true) Demo.config0
           (fun next =>
              handler (P := Demo.platform true) (applyDefaults Demo.config0)
                (tokenFromHeader (P := Demo.platform true) "Authorization" "Bearer")
                tt next)
           Demo.creds tt Demo.ok_handler (Demo.bearer_detail "Bearer good")
           ∅ 0%nat 2%nat 3%nat "good" []
           {| Demo.tokUID := "uid-1"; Demo.tokEmail := "alice@example.org" |}
           "alice" eq_refl eq_refl eq_refl eq_refl eq_refl eq_refl eq_refl eq_refl
           ltac:(discriminate) eq_refl eq_refl eq_refl).
Defined.

(** ** The later revision *)

(** Unfolds a run of the later revision's handler. *)
Ltac run_handler2 :=
  unfold Rev2.handler, Rev2.bind, Rev2.ret, Rev2.panic, Rev2.call_Skipper,
    Rev2.call_next, Rev2.GetUser, Rev2.VerifyIDToken, Rev2.call_GetRoles,
    Rev2.c_Set, Rev2.emit, Rev2.init, Rev2.assert_slice, Rev2.assert_string,
    Rev2.map_index; simpl.

(** Runs it up to the verification, for a request that is not skipped and
    whose token was extracted and accepted. *)
Ltac run_verified2 client auth rs Hskip Hex Hver :=
  run_handler2; rewrite Hskip, Hex; simpl;
  destruct (Client_GetUser client auth rs) as [? ?]; simpl in *;
  rewrite Hver; simpl.

(** X19.  In the later revision a token the verifier accepts but whose
    identities hold no list under "email" (no such entry, or an entry of
    another type) makes the handler panic on the type assertion, after the
    two remote calls and before anything is written; so does a list whose
    first element is not a string. *)
Theorem rev2_panics_without_email_identity `{P : Platform} {I : Rev2.Identities P}
    (config : Rev2.Config) (extractor : tokenExtractorFunc) (client : Client)
    (next : Rev2.HandlerFunc) (c : Request) (st : gmap string Rev2.value)
    (rs rs2 : RemoteState) (auth : string) (tok : Token) :
  Rev2.skips config c st = false ->
  extractor c = (auth, None) ->
  Client_VerifyIDToken client auth (Client_GetUser client auth rs).2 = (inl tok, rs2) ->
  let r := Rev2.handler config extractor client next c (Rev2.init st rs) in
  let reached :=
    {| Rev2.store := st; Rev2.remote := rs2;
       Rev2.trace := [Rev2.EvGetUser auth; Rev2.EvVerifyIDToken auth] |} in
  ((forall elems, Rev2.Firebase_Identities tok !! "email" <> Some (Rev2.ISlice elems)) ->
   r = (Rev2.Panics (Rev2.map_index (Rev2.Firebase_Identities tok) "email")
          "[]interface {}", reached)) /\
  (forall first others,
     Rev2.Firebase_Identities tok !! "email" = Some (Rev2.ISlice (first :: others)) ->
     (forall email, first <> Rev2.IString email) ->
     r = (Rev2.Panics first "string", reached)).
Proof.
  intros Hskip Hex Hver r reached. subst r reached. split.
  - intros Hno. run_verified2 client auth rs Hskip Hex Hver.
    destruct (Rev2.Firebase_Identities tok !! "email") as [[| | elems |]|] eqn:Hid;
      simpl; try reflexivity.
    by destruct (Hno elems).
  - intros first others Hid Hfirst. run_verified2 client auth rs Hskip Hex Hver.
    rewrite Hid. simpl. destruct first as [|email| |]; simpl; try reflexivity.
    by destruct (Hfirst email).
Qed.

Lemma rev2_panics_without_email_identity_witness :
  Rev2.handler (P := Rev2.Demo2.platform) (I := Rev2.Demo2.identities)
    (Rev2.applyDefaults (Rev2.Demo2.config0 None))
    (tokenFromHeader (P := Rev2.Demo2.platform) "Authorization" "Bearer") tt
    Rev2.Demo2.ok_handler (Demo.bearer "Bearer anon") Rev2.Demo2.start
  = (Rev2.Panics Rev2.INil "[]interface {}",
     @Rev2.Build_State Rev2.Demo2.platform ∅ 2%nat
       [Rev2.EvGetUser "anon"; Rev2.EvVerifyIDToken "anon"]).
Proof.
  apply (proj1 (rev2_panics_without_email_identity (P := Rev2.Demo2.platform)
                  (I := Rev2.Demo2.identities)
                  (Rev2.applyDefaults (Rev2.Demo2.config0 None))
                  (tokenFromHeader (P := Rev2.Demo2.platform) "Authorization" "Bearer")
                  tt Rev2.Demo2.ok_handler (Demo.bearer "Bearer anon") ∅
                  0%nat 2%nat "anon"
                  {| Demo.tokUID := "uid-2"; Demo.tokEmail := "" |}
                  eq_refl eq_refl eq_refl)).
  intros elems. vm_compute. discriminate.
Defined.

(** X20.  In the later revision the role lookup is given the configured
    context key name, not the e-mail of the token.  For a verified token
    with an e-mail identity and a lookup that knows roles for that key name,
    the handler writes the e-mail, the claims, the provider tag and those
    roles, in that order, with the one call of the lookup before the last
    write.  Whenever the next handler then runs, it sees the store so
    written, with the serialized profile added for a detail request, and
    unless the user key is "roles" it reads those roles under "roles"
    whatever the e-mail is; without a detail request it runs exactly once. *)
Theorem rev2_roles_looked_up_by_key_name `{P : Platform} {I : Rev2.Identities P}
    (config : Rev2.Config) (extractor : tokenExtractorFunc) (client : Client)
    (next : Rev2.HandlerFunc) (c : Request) (st : gmap string Rev2.value)
    (rs rs2 : RemoteState) (auth email : string) (others : list Rev2.iface)
    (tok : Token) (getRoles : Rev2.GetRolesFunc) :
  Rev2.skips config c st = false ->
  extractor c = (auth, None) ->
  Client_VerifyIDToken client auth (Client_GetUser client auth rs).2 = (inl tok, rs2) ->
  Rev2.Firebase_Identities tok !! "email"
    = Some (Rev2.ISlice (Rev2.IString email :: others)) ->
  Rev2.GetRoles config = Some getRoles ->
  getRoles (Rev2.ContextUserIDKey config) <> [] ->
  let roles := getRoles (Rev2.ContextUserIDKey config) in
  let written :=
    <[Rev2.ContextKeyRoles := Rev2.VStrings roles]>
      (<["auth-provider" := Rev2.VString "firebase"]>
         (<[Rev2.ContextIDKey config := Rev2.VString (json_Marshal_Token tok)]>
            (<[Rev2.ContextUserIDKey config := Rev2.VString email]> st))) in
  let prefix :=
    [Rev2.EvGetUser auth; Rev2.EvVerifyIDToken auth;
     Rev2.EvSet (Rev2.ContextUserIDKey config) (Rev2.VString email);
     Rev2.EvSet (Rev2.ContextIDKey config) (Rev2.VString (json_Marshal_Token tok));
     Rev2.EvSet "auth-provider" (Rev2.VString "firebase");
     Rev2.EvGetRoles (Rev2.ContextUserIDKey config);
     Rev2.EvSet "roles" (Rev2.VStrings roles)] in
  let r := Rev2.handler config extractor client next c (Rev2.init st rs) in
  (exists rest,
     Rev2.trace r.2 = (prefix ++ rest)%list /\
     forall arg, Rev2.EvGetRoles arg ∉ rest) /\
  (forall seen,
     Rev2.EvNext seen ∈ Rev2.trace r.2 ->
     (seen = written \/
      exists user,
        Header_Get c "X-GetUser" = "true" /\
        seen = <[Rev2.ContextUserKey config := Rev2.VString (json_Marshal_User user)]>
                 written) /\
     (Rev2.ContextUserKey config <> "roles" ->
      seen !! "roles" = Some (Rev2.VStrings roles))) /\
  (Header_Get c "X-GetUser" <> "true" ->
   r = (Rev2.Returns (next c written).1,
        {| Rev2.store := (next c written).2; Rev2.remote := rs2;
           Rev2.trace := (prefix ++ [Rev2.EvNext written])%list |})).
Proof.
  intros Hskip Hex Hver Hid Hget Hroles roles written prefix r.
  subst r prefix.
  run_verified2 client auth rs Hskip Hex Hver.
  rewrite Hid, Hget. simpl.
  rewrite bool_decide_eq_false_2
    by (by destruct (getRoles (Rev2.ContextUserIDKey config))).
  simpl. fold roles. fold written.
  destruct (bool_decide_reflect (Header_Get c "X-GetUser" = "true")) as [Hwant|Hwant];
    simpl.
  - destruct (Client_GetUser client (UID tok) rs2) as [[user|err] rs3]; simpl.
    + destruct (next c _) as [res st'] eqn:Hnext; simpl.
      split; [|split; [|done]].
      * eexists. split; [reflexivity|]. intros arg Hin. which_event.
      * intros seen Hin. which_event. split; [right; eauto|].
        intros Hne. rewrite lookup_insert_ne by done. apply lookup_insert_eq.
    + split; [|split; [|done]].
      * eexists. split; [reflexivity|]. intros arg Hin. which_event.
      * intros seen Hin. which_event.
  - destruct (next c written) as [res st'] eqn:Hnext; simpl.
    split; [|split; [|done]].
    + eexists. split; [reflexivity|]. intros arg Hin. which_event.
    + intros seen Hin. which_event. split; [by left|].
      intros _. apply lookup_insert_eq.
Qed.

Lemma rev2_roles_looked_up_by_key_name_witness :
  let getRoles : Rev2.GetRolesFunc :=
    fun email => if bool_decide (email = "alice@example.org") then [] else ["guest"] in
  exists seen,
    (Rev2.handler (P := Rev2.Demo2.platform) (I := Rev2.Demo2.identities)
       (Rev2.applyDefaults (Rev2.Demo2.config0 (Some getRoles)))
       (tokenFromHeader (P := Rev2.Demo2.platform) "Authorization" "Bearer") tt
       Rev2.Demo2.ok_handler (Demo.bearer "Bearer good") Rev2.Demo2.start).1
    = Rev2.Returns (Rev2.Demo2.ok_handler (Demo.bearer "Bearer good") seen).1 /\
    seen !! "roles" = Some (Rev2.VStrings ["guest"]).
Proof.
  intros getRoles.
  destruct (rev2_roles_looked_up_by_key_name (P := Rev2.Demo2.platform)
              (I := Rev2.Demo2.identities)
              (Rev2.applyDefaults (Rev2.Demo2.config0 (Some getRoles)))
              (tokenFromHeader (P := Rev2.Demo2.platform) "Authorization" "Bearer")
              tt Rev2.Demo2.ok_handler (Demo.bearer "Bearer good") ∅
              0%nat 2%nat "good" "alice@example.org" []
              {| Demo.tokUID := "uid-1"; Demo.tokEmail := "alice@example.org" |}
              getRoles eq_refl eq_refl eq_refl eq_refl eq_refl
              ltac:(discriminate))
    as (_ & _ & Hrun).
  exists (<["roles" := Rev2.VStrings ["guest"]]>
            (<["auth-provider" := Rev2.VString "firebase"]>
               (<["id-key" := Rev2.VString "{uid:uid-1}"]>
                  (<["userID" := Rev2.VString "alice@example.org"]> ∅)))).
  unfold Rev2.Demo2.start.
  rewrite (Hrun ltac:(discriminate)). split; [reflexivity|].
  apply lookup_insert_eq.
Defined.

(** X21.  In the later revision, when the role lookup knows no role for the
    configured context key name, every verified token with an e-mail
    identity is refused: 401 with the cause "no roles found", the next
    handler not invoked, and the e-mail, the claims and the provider tag
    already written. *)
Theorem rev2_no_roles_found `{P : Platform} {I : Rev2.Identities P}
    (config : Rev2.Config) (extractor : tokenExtractorFunc) (client : Client)
    (next : Rev2.HandlerFunc) (c : Request) (st : gmap string Rev2.value)
    (rs rs2 : RemoteState) (auth email : string) (others : list Rev2.iface)
    (tok : Token) (getRoles : Rev2.GetRolesFunc) :
  Rev2.skips config c st = false ->
  extractor c = (auth, None) ->
  Client_VerifyIDToken client auth (Client_GetUser client auth rs).2 = (inl tok, rs2) ->
  Rev2.Firebase_Identities tok !! "email"
    = Some (Rev2.ISlice (Rev2.IString email :: others)) ->
  Rev2.GetRoles config = Some getRoles ->
  getRoles (Rev2.ContextUserIDKey config) = [] ->
  Rev2.handler config extractor client next c (Rev2.init st rs) =
    (Rev2.Returns
       (Some (HTTPError 401 "Invalid or expired Firebase AuthID TOKEN"
                (Some (errorString "no roles found")))),
     {| Rev2.store :=
          <["auth-provider" := Rev2.VString "firebase"]>
            (<[Rev2.ContextIDKey config := Rev2.VString (json_Marshal_Token tok)]>
               (<[Rev2.ContextUserIDKey config := Rev2.VString email]> st));
        Rev2.remote := rs2;
        Rev2.trace :=
          [Rev2.EvGetUser auth; Rev2.EvVerifyIDToken auth;
           Rev2.EvSet (Rev2.ContextUserIDKey config) (Rev2.VString email);
           Rev2.EvSet (Rev2.ContextIDKey config) (Rev2.VString (json_Marshal_Token tok));
           Rev2.EvSet "auth-provider" (Rev2.VString "firebase");
           Rev2.EvGetRoles (Rev2.ContextUserIDKey config)] |}).
Proof.
  intros Hskip Hex Hver Hid Hget Hroles.
  run_verified2 client auth rs Hskip Hex Hver.
  rewrite Hid, Hget. simpl. by rewrite Hroles.
Qed.

Lemma rev2_no_roles_found_witness :
  let getRoles : Rev2.GetRolesFunc :=
    fun email => if bool_decide (email = "alice@example.org") then ["admin"] else [] in
  (Rev2.handler (P := Rev2.Demo2.platform) (I := Rev2.Demo2.identities)
     (Rev2.applyDefaults (Rev2.Demo2.config0 (Some getRoles)))
     (tokenFromHeader (P := Rev2.Demo2.platform) "Authorization" "Bearer") tt
     Rev2.Demo2.ok_handler (Demo.bearer "Bearer good") Rev2.Demo2.start).1
  = Rev2.Returns
      (Some (HTTPError 401 "Invalid or expired Firebase AuthID TOKEN"
               (Some (errorString "no roles found")))).
Proof.
  intros getRoles. unfold Rev2.Demo2.start.
  by rewrite (rev2_no_roles_found (P := Rev2.Demo2.platform)
                (I := Rev2.Demo2.identities)
                (Rev2.applyDefaults (Rev2.Demo2.config0 (Some getRoles)))
                (tokenFromHeader (P := Rev2.Demo2.platform) "Authorization" "Bearer")
                tt Rev2.Demo2.ok_handler (Demo.bearer "Bearer good") ∅
                0%nat 2%nat "good" "alice@example.org" []
                {| Demo.tokUID := "uid-1"; Demo.tokEmail := "alice@example.org" |}
                getRoles eq_refl eq_refl eq_refl eq_refl eq_refl eq_refl).
Defined.

(** The later revision's [WithConfig], when it constructs. *)
Lemma rev2_WithConfig_Built `{P : Platform} {I : Rev2.Identities P}
    (config : Rev2.Config) (part0 part1 : string) (more : list string)
    (authApp : App) (client : Client) :
  strings_Split (Rev2.TokenLookup (Rev2.applyDefaults config)) ":"
    = part0 :: part1 :: more ->
  Rev2.CredentialJSON config <> [] ->
  firebase_NewApp (Rev2.CredentialJSON config) = inl authApp ->
  App_Auth authApp = inl client ->
  Rev2.WithConfig config =
    Built (fun next =>
      Rev2.handler (Rev2.applyDefaults config)
        (extractorFor part0 part1 (Rev2.AuthScheme (Rev2.applyDefaults config)))
        client next).
Proof.
  intros Hparts Hcred Happ Hauth. unfold Rev2.WithConfig.
  rewrite Hparts. cbn [Rev2.CredentialJSON Rev2.applyDefaults].
  rewrite bool_decide_eq_false_2 by (by destruct (Rev2.CredentialJSON config)).
  by rewrite Happ, Hauth.
Qed.

(** X22.  End to end in the later revision, with every optional field left
    unset and no role lookup.  A request that is not skipped, with
    "Authorization: Bearer <token>" for a token the verifier accepts and
    whose first e-mail identity is a string, and no detail request, reaches
    the next handler once; there [GetContextValue] gives the e-mail under
    "userID", the serialized claims under "id-key", "firebase" under
    "auth-provider", and the empty string under a key nobody has set. *)
Theorem rev2_defaults_end_to_end `{P : Platform} {I : Rev2.Identities P}
    (config : Rev2.Config) (authApp : App) (client : Client)
    (next : Rev2.HandlerFunc) (c : Request) (st : gmap string Rev2.value)
    (rs rs2 : RemoteState) (token email unset : string) (more : list string)
    (others : list Rev2.iface) (tok : Token) :
  Rev2.ContextIDKey config = "" ->
  Rev2.ContextUserIDKey config = "" ->
  Rev2.TokenLookup config = "" ->
  Rev2.AuthScheme config = "" ->
  Rev2.GetRoles config = None ->
  Rev2.CredentialJSON config <> [] ->
  firebase_NewApp (Rev2.CredentialJSON config) = inl authApp ->
  App_Auth authApp = inl client ->
  Rev2.skips config c st = false ->
  Header c !! CanonicalMIMEHeaderKey "Authorization" = Some (("Bearer " +:+ token) :: more) ->
  token <> "" ->
  Client_VerifyIDToken client token (Client_GetUser client token rs).2 = (inl tok, rs2) ->
  Rev2.Firebase_Identities tok !! "email"
    = Some (Rev2.ISlice (Rev2.IString email :: others)) ->
  Header_Get c "X-GetUser" <> "true" ->
  st !! unset = None ->
  unset <> "userID" -> unset <> "id-key" -> unset <> "auth-provider" ->
  exists mw seen,
    Rev2.WithConfig config = Built mw /\
    mw next c (Rev2.init st rs) =
      (Rev2.Returns (next c seen).1,
       {| Rev2.store := (next c seen).2; Rev2.remote := rs2;
          Rev2.trace :=
            [Rev2.EvGetUser token; Rev2.EvVerifyIDToken token;
             Rev2.EvSet "userID" (Rev2.VString email);
             Rev2.EvSet "id-key" (Rev2.VString (json_Marshal_Token tok));
             Rev2.EvSet "auth-provider" (Rev2.VString "firebase");
             Rev2.EvNext seen] |}) /\
    Rev2.GetContextValue seen "userID" = email /\
    Rev2.GetContextValue seen "id-key" = json_Marshal_Token tok /\
    Rev2.GetContextValue seen "auth-provider" = "firebase" /\
    Rev2.GetContextValue seen unset = "".
Proof.
  intros Hidkey Huidkey Hlookup Hscheme Hroles Hcred Happ Hauth Hskip Hhdr Hne Hver
    Hid Hwant Hunset Hu1 Hu2 Hu3.
  set (config' := Rev2.applyDefaults config).
  assert (Hex : tokenFromHeader "Authorization" (Rev2.AuthScheme config') c
                = (token, None)).
  { cbn [Rev2.AuthScheme Rev2.applyDefaults config']. rewrite Hscheme. simpl.
    apply tokenFromHeader_Some. exists " "%char. split; [|done].
    unfold Header_Get. by rewrite Hhdr. }
  assert (Hskip' : Rev2.skips config' c st = false).
  { unfold Rev2.skips in *. cbn [Rev2.Skipper Rev2.applyDefaults config'].
    by destruct (Rev2.Skipper config). }
  set (seen :=
    <["auth-provider" := Rev2.VString "firebase"]>
      (<["id-key" := Rev2.VString (json_Marshal_Token tok)]>
         (<["userID" := Rev2.VString email]> st))).
  exists (fun next =>
            Rev2.handler config'
              (extractorFor "header" "Authorization" (Rev2.AuthScheme config'))
              client next), seen.
  split.
  { apply (rev2_WithConfig_Built config "header" "Authorization" [] authApp client);
      try done.
    cbn [Rev2.TokenLookup Rev2.applyDefaults]. by rewrite Hlookup. }
  split.
  { assert (Hrun : forall cfg ex,
              Rev2.skips cfg c st = false -> ex c = (token, None) ->
              Rev2.ContextIDKey cfg = "id-key" ->
              Rev2.ContextUserIDKey cfg = "userID" ->
              Rev2.GetRoles cfg = None ->
              Rev2.handler cfg ex client next c (Rev2.init st rs) =
                (Rev2.Returns (next c seen).1,
                 {| Rev2.store := (next c seen).2; Rev2.remote := rs2;
                    Rev2.trace :=
                      [Rev2.EvGetUser token; Rev2.EvVerifyIDToken token;
                       Rev2.EvSet "userID" (Rev2.VString email);
                       Rev2.EvSet "id-key" (Rev2.VString (json_Marshal_Token tok));
                       Rev2.EvSet "auth-provider" (Rev2.VString "firebase");
                       Rev2.EvNext seen] |})).
    { intros cfg ex Hs He Hk1 Hk2 Hr.
      run_verified2 client token rs Hs He Hver.
      rewrite Hid, Hr, Hk1, Hk2. simpl.
      rewrite (bool_decide_eq_false_2 _ Hwant). simpl.
      fold seen. by destruct (next c seen). }
    apply Hrun; try done.
    - cbn [Rev2.ContextIDKey Rev2.applyDefaults config']. by rewrite Hidkey.
    - cbn [Rev2.ContextUserIDKey Rev2.applyDefaults config']. by rewrite Huidkey. }
  unfold Rev2.GetContextValue, seen.
  split; [by rewrite !lookup_insert_ne, lookup_insert_eq by done|].
  split; [by rewrite lookup_insert_ne, lookup_insert_eq by done|].
  split; [by rewrite lookup_insert_eq|].
  by rewrite !lookup_insert_ne, Hunset by done.
Qed.

Lemma rev2_defaults_end_to_end_witness :
  exists mw seen,
    Rev2.WithConfig (P := Rev2.Demo2.platform) (I := Rev2.Demo2.identities)
      (Rev2.Demo2.config0 None) = Built mw /\
    (mw Rev2.Demo2.ok_handler (Demo.bearer "Bearer good") Rev2.Demo2.start).1
      = Rev2.Returns (Rev2.Demo2.ok_handler (Demo.bearer "Bearer good") seen).1 /\
    Rev2.GetContextValue seen "userID" = "alice@example.org" /\
    Rev2.GetContextValue seen "id-key" = "{uid:uid-1}" /\
    Rev2.GetContextValue seen "roles" = "".
Proof.
  destruct (rev2_defaults_end_to_end (P := Rev2.Demo2.platform)
              (I := Rev2.Demo2.identities) (Rev2.Demo2.config0 None)
              Demo.creds tt Rev2.Demo2.ok_handler (Demo.bearer "Bearer good") ∅
              0%nat 2%nat "good" "alice@example.org" "roles" [] []
              {| Demo.tokUID := "uid-1"; Demo.tokEmail := "alice@example.org" |}
              eq_refl eq_refl eq_refl eq_refl eq_refl ltac:(discriminate)
              eq_refl eq_refl eq_refl eq_refl ltac:(discriminate) eq_refl eq_refl
              ltac:(discriminate) eq_refl ltac:(discriminate) ltac:(discriminate)
              ltac:(discriminate))
    as (mw & seen & Hbuilt & Hrun & Huid & Hclaims & _ & Hunset).
  exists mw, seen. split; [exact Hbuilt|].
  split; [unfold Rev2.Demo2.start; by rewrite Hrun|].
  split; [exact Huid|]. split; [exact Hclaims | exact Hunset].
Defined.
